(** * worker_static_ip: the static-IP worker's request handler

    A shallow embedding of [src/worker/worker_static_ip.py]: the outbound
    lookup [get_public_ip] and the handler methods [_json_response],
    [do_GET] and [do_POST] of [StaticIPHandler], followed by the theorems
    about them.

    Conventions.
    - A Python [str] that holds request or response {e data} (JSON strings,
      the text of the lookup response, dictionary keys) is a list of Unicode
      code points, [ustr].  A [str] that the interpreter decodes from the
      wire as latin-1 (the request path, header names and values) or that is
      ASCII by construction (the output of [json.dumps]) is a Rocq [string],
      whose characters are the code points 0..255.
    - [bytes] is [list byte].
    - A call that can raise returns a [result]; [Raise e] is the exception
      leaving the call.  Handlers run on the server's worker threads, where
      every exception that can occur derives from [Exception].
    - Functions of the Python runtime whose output the handler only passes
      on ([json.loads], [float.__repr__], [repr] of an exception) are fields
      of a [PyRuntime]; every theorem holds for every runtime.
    - [Ok t] is the list of calls a handler makes on the connection, in
      order.  What can stop those calls from outside the handler's text is
      not part of the embedding: a client that has gone, so that
      [wfile.write] raises; the interpreter's recursion limit inside
      [json.dumps] on a deeply nested payload; the memory [rfile.read]
      needs for a large size.  Theorems about a POST whose body reaches the
      answer therefore take the answer, and the read, as hypotheses. *)

From Stdlib Require Import List String Ascii ZArith NArith Lia Bool.
From Stdlib.Strings Require Import Byte.
From Stdlib Require Import Decimal DecimalString DecimalNat DecimalZ SpecFloat.
Import ListNotations.

Local Open Scope string_scope.
Local Open Scope Z_scope.

(** ** Exceptions and fallible calls *)

Inductive exn_class : Type :=
| ValueError            (* int() on a malformed literal, read() on a bad size *)
| OverflowError         (* read() on a size beyond Py_ssize_t *)
| AttributeError        (* .get on a value that is not a dict *)
| UnicodeDecodeError    (* bytes.decode inside json.loads *)
| RecursionError        (* json.loads on deeply nested input *)
| JSONDecodeError       (* json.JSONDecodeError *)
| Timeout               (* requests.exceptions.Timeout and subclasses *)
| ConnectionError       (* requests.exceptions.ConnectionError and subclasses *)
| HTTPError             (* requests.exceptions.HTTPError *)
| RequestException.     (* any other requests.exceptions.RequestException *)

Definition ustr : Type := list N.

Record exn : Type := mkExn {
  exn_cls : exn_class;
  exn_msg : ustr
}.

Inductive result (A : Type) : Type :=
| Ok (a : A)
| Raise (e : exn).
Arguments Ok {A} a.
Arguments Raise {A} e.

Definition bind {A B : Type} (m : result A) (k : A -> result B) : result B :=
  match m with
  | Ok a => k a
  | Raise e => Raise e
  end.

Notation "x <- m ;; k" := (bind m (fun x => k))
  (at level 61, m at next level, right associativity).

Definition exn_class_eqb (c d : exn_class) : bool :=
  match c, d with
  | ValueError, ValueError | OverflowError, OverflowError
  | AttributeError, AttributeError | UnicodeDecodeError, UnicodeDecodeError
  | RecursionError, RecursionError | JSONDecodeError, JSONDecodeError
  | Timeout, Timeout | ConnectionError, ConnectionError
  | HTTPError, HTTPError | RequestException, RequestException => true
  | _, _ => false
  end.

(** [try: m  except cls: h]: only an exception of class [cls] is handled. *)
Definition try_except {A : Type} (m : result A) (cls : exn_class)
    (h : exn -> result A) : result A :=
  match m with
  | Ok a => Ok a
  | Raise e => if exn_class_eqb (exn_cls e) cls then h e else Raise e
  end.

(** [try: m  except Exception as exc: h exc]: every exception of the model
    derives from [Exception], so the clause handles all of them. *)
Definition try_except_Exception {A : Type} (m : result A)
    (h : exn -> result A) : result A :=
  match m with
  | Ok a => Ok a
  | Raise e => h e
  end.

Definition raises {A : Type} (m : result A) : Prop := exists e, m = Raise e.

(** ** Strings *)

(** A [str] literal of the source as code points. *)
Definition u (s : string) : ustr := map N_of_ascii (list_ascii_of_string s).

Fixpoint ustr_eqb (a b : ustr) : bool :=
  match a, b with
  | [], [] => true
  | x :: a', y :: b' => (x =? y)%N && ustr_eqb a' b'
  | _, _ => false
  end.

(** [str.isspace] on one code point: the characters [str.strip()] removes. *)
Definition isspace (c : N) : bool :=
  (((9 <=? c) && (c <=? 13)) || ((28 <=? c) && (c <=? 32))
   || (c =? 133) || (c =? 160) || (c =? 5760)
   || ((8192 <=? c) && (c <=? 8202))
   || (c =? 8232) || (c =? 8233) || (c =? 8239) || (c =? 8287)
   || (c =? 12288))%N.

Fixpoint lstrip (s : ustr) : ustr :=
  match s with
  | c :: s' => if isspace c then lstrip s' else s
  | [] => []
  end.

Definition rstrip (s : ustr) : ustr := List.rev (lstrip (List.rev s)).

(** [str.strip()] without arguments. *)
Definition strip (s : ustr) : ustr := rstrip (lstrip s).

(** [x or y] on two [str]: the empty string is falsy. *)
Definition str_or (x y : string) : string :=
  match x with
  | EmptyString => y
  | _ => x
  end.

(** [x or y] on two [bytes]. *)
Definition bytes_or (x y : list byte) : list byte :=
  match x with
  | [] => y
  | _ => x
  end.

(** ** [int(s)] on a [str] and [str(n)] on a length *)

Definition is_digit (c : ascii) : bool :=
  let n := N_of_ascii c in ((48 <=? n) && (n <=? 57))%N.

(** [Py_ISSPACE]: the ASCII white space [int] skips around the literal. *)
Definition Py_ISSPACE (c : ascii) : bool :=
  let n := N_of_ascii c in (((9 <=? n) && (n <=? 13)) || (n =? 32))%N.

(** The first pass of [int(str)]: a code point of 127 or more becomes a
    space when it is Unicode white space (in latin-1: NEL and NBSP) and
    ends the literal with a question mark otherwise; latin-1 has no decimal
    digits beyond the ASCII ones. *)
Fixpoint transform_decimal_and_space (s : list ascii) : list ascii :=
  match s with
  | [] => []
  | c :: s' =>
      let n := N_of_ascii c in
      if (n <? 127)%N then c :: transform_decimal_and_space s'
      else if ((n =? 133) || (n =? 160))%N
           then " "%char :: transform_decimal_and_space s'
           else ["?"%char]
  end.

Fixpoint skip_space (s : list ascii) : list ascii :=
  match s with
  | c :: s' => if Py_ISSPACE c then skip_space s' else s
  | [] => []
  end.

Definition digit_cons (c : ascii) (d : uint) : uint :=
  match N_of_ascii c with
  | 48%N => D0 d | 49%N => D1 d | 50%N => D2 d | 51%N => D3 d | 52%N => D4 d
  | 53%N => D5 d | 54%N => D6 d | 55%N => D7 d | 56%N => D8 d | _ => D9 d
  end.

Definition invalid_literal : exn :=
  mkExn ValueError (u "invalid literal for int() with base 10").

(** The digit scan of [int]: digits with single underscores between them.
    [prev_us] tells that the previous character was an underscore.  Returns
    the digits read, most significant first, and the rest of the input. *)
Fixpoint scan_digits (prev_us : bool) (s : list ascii)
    : result (uint * list ascii) :=
  match s with
  | [] => if prev_us then Raise invalid_literal else Ok (Nil, [])
  | c :: s' =>
      if is_digit c then
        r <- scan_digits false s' ;;
        Ok (digit_cons c (fst r), snd r)
      else if Ascii.eqb c "_" then
        if prev_us then Raise invalid_literal else scan_digits true s'
      else if prev_us then Raise invalid_literal else Ok (Nil, s)
  end.

Fixpoint uint_length (d : uint) : nat :=
  match d with
  | Nil => O
  | D0 d | D1 d | D2 d | D3 d | D4 d | D5 d | D6 d | D7 d | D8 d | D9 d =>
      S (uint_length d)
  end.

(** [int(s)] in base 10.  [max_digits] is the interpreter's limit on the
    number of digits of a literal ([sys.get_int_max_str_digits()]; 0 turns
    the limit off, as do interpreters older than the limit). *)
Definition py_int (max_digits : nat) (s : string) : result Z :=
  let s1 := skip_space (transform_decimal_and_space (list_ascii_of_string s)) in
  let '(neg, s2) :=
    match s1 with
    | c :: s' =>
        if Ascii.eqb c "-" then (true, s')
        else if Ascii.eqb c "+" then (false, s')
        else (false, s1)
    | [] => (false, s1)
    end in
  match s2 with
  | c :: _ =>
      if Ascii.eqb c "_" then Raise invalid_literal
      else
        r <- scan_digits false s2 ;;
        match fst r, skip_space (snd r) with
        | Nil, _ => Raise invalid_literal
        | d, [] =>
            if (Nat.ltb 0 max_digits && Nat.ltb max_digits (uint_length d))%bool
            then Raise (mkExn ValueError
                   (u "Exceeds the limit for integer string conversion"))
            else Ok (if neg then Z.opp (Z.of_uint d) else Z.of_uint d)
        | _, _ :: _ => Raise invalid_literal
        end
  | [] => Raise invalid_literal
  end.

(** [str(n)] and [repr(n)] on an [int]. *)
Definition py_str_Z (n : Z) : string := NilZero.string_of_int (Z.to_int n).

(** [len(x)], an [int]. *)
Definition len {A : Type} (x : list A) : Z := Z.of_nat (List.length x).

(** ** JSON values, [json.dumps] and [str.encode] *)

#[local] Set Warnings "-register-all".

(** The Python values [json.loads] produces and [json.dumps] accepts.  A
    [dict] keeps its keys in insertion order, which is the order in which
    [json.dumps] writes them. *)
Inductive pyval : Type :=
| PNone
| PBool (b : bool)
| PInt (n : Z)
| PFloat (f : spec_float)
| PStr (s : ustr)
| PList (l : list pyval)
| PDict (d : list (ustr * pyval)).

Definition dquote : ascii := ascii_of_N 34.
Definition backslash : ascii := ascii_of_N 92.

(** [s] between double quotes. *)
Definition quoted (s : string) : string :=
  String dquote (s ++ String dquote "").

Definition hex_digit (n : N) : ascii :=
  if (n <? 10)%N then ascii_of_N (48 + n) else ascii_of_N (87 + n).

(** ['\\u{0:04x}'.format(n)] *)
Definition escape_u (n : N) : string :=
  String backslash (String "u"
    (String (hex_digit (N.land (N.shiftr n 12) 15))
    (String (hex_digit (N.land (N.shiftr n 8) 15))
    (String (hex_digit (N.land (N.shiftr n 4) 15))
    (String (hex_digit (N.land n 15)) ""))))).

(** One character of [json.encoder.encode_basestring_ascii]. *)
Definition escape_char (c : N) : string :=
  if (c =? 34)%N then String backslash (String dquote "")
  else if (c =? 92)%N then String backslash (String backslash "")
  else if (c =? 10)%N then String backslash "n"
  else if (c =? 13)%N then String backslash "r"
  else if (c =? 9)%N then String backslash "t"
  else if (c =? 12)%N then String backslash "f"
  else if (c =? 8)%N then String backslash "b"
  else if ((32 <=? c) && (c <=? 126))%N then String (ascii_of_N c) ""
  else if (c <? 65536)%N then escape_u c
  else
    let n := (c - 65536)%N in
    escape_u (N.lor 55296 (N.land (N.shiftr n 10) 1023))
      ++ escape_u (N.lor 56320 (N.land n 1023)).

Definition encode_basestring_ascii (s : ustr) : string :=
  String dquote (concat "" (map escape_char s) ++ String dquote "").

Section Dumps.

(** [float.__repr__] on a finite float. *)
Variable float_repr : spec_float -> string.

(** [json.encoder.floatstr] with [allow_nan=True]. *)
Definition floatstr (f : spec_float) : string :=
  match f with
  | S754_nan => "NaN"
  | S754_infinity false => "Infinity"
  | S754_infinity true => "-Infinity"
  | _ => float_repr f
  end.

(** [json.dumps(v)] with the default arguments: [ensure_ascii=True],
    separators [", "] and [": "]. *)
Fixpoint json_dumps (v : pyval) : string :=
  match v with
  | PNone => "null"
  | PBool true => "true"
  | PBool false => "false"
  | PInt n => py_str_Z n
  | PFloat f => floatstr f
  | PStr s => encode_basestring_ascii s
  | PList l => "[" ++ concat ", " (map json_dumps l) ++ "]"
  | PDict d =>
      "{" ++ concat ", "
               (map (fun kv => encode_basestring_ascii (fst kv) ++ ": "
                                 ++ json_dumps (snd kv)) d)
          ++ "}"
  end.

End Dumps.

(** [s.encode("utf-8")] on a [str] of code points below 256: one byte up to
    127, two bytes from 128 on. *)
Fixpoint encode_utf8 (s : string) : list byte :=
  match s with
  | EmptyString => []
  | String c s' =>
      let n := N_of_ascii c in
      if (n <? 128)%N then byte_of_ascii c :: encode_utf8 s'
      else byte_of_ascii (ascii_of_N (192 + N.shiftr n 6))
           :: byte_of_ascii (ascii_of_N (128 + N.land n 63))
           :: encode_utf8 s'
  end.

(** ** The Python runtime and the surroundings of one request *)

Record PyRuntime : Type := {
  (** [json.loads] on [bytes] *)
  json_loads : list byte -> result pyval;
  (** [float.__repr__] on a finite float *)
  float_repr : spec_float -> string;
  (** [repr(exc)], the text [{exc!r}] puts into an f-string *)
  exc_repr : exn -> ustr;
  (** [sys.get_int_max_str_digits()] *)
  int_max_str_digits : nat
}.

(** A [requests.Response], with the attributes [raise_for_status] and the
    worker read. *)
Record Response : Type := {
  status_code : Z;
  reason : ustr;
  url : ustr;
  text : ustr
}.

(** What one request meets outside the process: the outcome of the call
    [requests.get(IP_CHECK_URL, timeout=IP_TIMEOUT)] and the reading of
    [time.time()]. *)
Record Env : Type := {
  requests_get : result Response;
  time_time : spec_float
}.

(** The request as the handler sees it: [self.path], [self.headers] and the
    bytes still to come on [self.rfile], which the client closes after its
    body. *)
Record Request : Type := {
  path : string;
  headers : list (string * string);
  rfile : list byte
}.

(** The calls a handler makes on the base class to answer. *)
Inductive wire_op : Type :=
| send_response (code : Z)
| send_header (keyword value : string)
| end_headers
| wfile_write (b : list byte)
| send_error (code : Z) (message : string).

Module HTTPStatus.
Definition OK : Z := 200.
Definition NOT_FOUND : Z := 404.
Definition BAD_GATEWAY : Z := 502.
End HTTPStatus.

(** ** Library calls of the handler *)

(** [Response.raise_for_status] of the requests library: [HTTPError] for a
    status from 400 to 599, nothing otherwise. *)
Definition raise_for_status (resp : Response) : result unit :=
  let code := status_code resp in
  let http_error_msg :=
    if (400 <=? code) && (code <? 500) then
      (u (py_str_Z code) ++ u " Client Error: " ++ reason resp
         ++ u " for url: " ++ url resp)%list
    else if (500 <=? code) && (code <? 600) then
      (u (py_str_Z code) ++ u " Server Error: " ++ reason resp
         ++ u " for url: " ++ url resp)%list
    else [] in
  match http_error_msg with
  | [] => Ok tt
  | _ => Raise (mkExn HTTPError http_error_msg)
  end.

Definition lower (c : ascii) : ascii :=
  let n := N_of_ascii c in
  if ((65 <=? n) && (n <=? 90))%N then ascii_of_N (n + 32) else c.

Fixpoint lower_str (s : string) : string :=
  match s with
  | EmptyString => EmptyString
  | String c s' => String (lower c) (lower_str s')
  end.

(** [headers.get(name)]: the value of the first header of that name, names
    compared without case; [None] when there is none. *)
Fixpoint headers_find (h : list (string * string)) (name : string)
    : option string :=
  match h with
  | [] => None
  | (k, v) :: h' =>
      if String.eqb (lower_str k) (lower_str name) then Some v
      else headers_find h' name
  end.

(** [headers.get(name, failobj)] *)
Definition headers_get (h : list (string * string)) (name failobj : string)
    : string :=
  match headers_find h name with
  | Some v => v
  | None => failobj
  end.

Definition ssize_t_max : Z := 2 ^ 63 - 1.

(** [rfile.read(size)] on a buffered reader whose peer has closed: the next
    [size] bytes or all that is left; everything for -1. *)
Definition rfile_read (f : list byte) (size : Z) : result (list byte) :=
  if size <? -1 then
    Raise (mkExn ValueError (u "read length must be non-negative or -1"))
  else if size =? -1 then Ok f
  else if ssize_t_max <? size then
    Raise (mkExn OverflowError
             (u "Python int too large to convert to C ssize_t"))
  else Ok (firstn (Z.to_nat size) f).

Fixpoint dict_find (d : list (ustr * pyval)) (key : ustr) : option pyval :=
  match d with
  | [] => None
  | (k, v) :: d' => if ustr_eqb k key then Some v else dict_find d' key
  end.

Definition type_name (v : pyval) : string :=
  match v with
  | PNone => "NoneType"
  | PBool _ => "bool"
  | PInt _ => "int"
  | PFloat _ => "float"
  | PStr _ => "str"
  | PList _ => "list"
  | PDict _ => "dict"
  end.

(** [v.get(key, default)]: defined on a [dict] only. *)
Definition py_get (v : pyval) (key : ustr) (default : pyval) : result pyval :=
  match v with
  | PDict d =>
      match dict_find d key with
      | Some x => Ok x
      | None => Ok default
      end
  | _ => Raise (mkExn AttributeError
                  (u "'" ++ u (type_name v)
                     ++ u "' object has no attribute 'get'")%list)
  end.

(** [p in (a, b, ...)] on strings *)
Definition path_in (p : string) (routes : list string) : bool :=
  existsb (String.eqb p) routes.

(** The bytes literal [b"{}"]. *)
Definition empty_object_bytes : list byte := [x7b; x7d].

(** ** The worker *)

Section Worker.

Variable rt : PyRuntime.

Definition get_public_ip (env : Env) : result ustr :=
  resp <- requests_get env ;;
  _ <- raise_for_status resp ;;
  Ok (strip (text resp)).

Definition _json_response (status : Z) (payload : list (ustr * pyval))
    : list wire_op :=
  let body := encode_utf8 (json_dumps (float_repr rt) (PDict payload)) in
  [ send_response status;
    send_header "Content-Type" "application/json";
    send_header "Content-Length" (py_str_Z (len body));
    end_headers;
    wfile_write body ].

Definition ip_check_failed (exc : exn) : ustr :=
  (u "ip_check_failed: " ++ exc_repr rt exc)%list.

Definition do_GET (env : Env) (req : Request) : result (list wire_op) :=
  if negb (path_in (path req) ["/"; "/healthz"; "/ip"]) then
    Ok [send_error HTTPStatus.NOT_FOUND "unknown path"]
  else
    try_except_Exception
      (ip <- get_public_ip env ;;
       Ok (_json_response HTTPStatus.OK
             [ (u "status", PStr (u "ok"));
               (u "public_ip", PStr ip);
               (u "timestamp", PFloat (time_time env)) ]))
      (fun exc =>
         Ok (_json_response HTTPStatus.BAD_GATEWAY
               [ (u "status", PStr (u "error"));
                 (u "error", PStr (ip_check_failed exc));
                 (u "timestamp", PFloat (time_time env)) ])).

Definition do_POST (env : Env) (req : Request) : result (list wire_op) :=
  if negb (path_in (path req) ["/invoke"; "/"]) then
    Ok [send_error HTTPStatus.NOT_FOUND "unknown path"]
  else
    length <- py_int (int_max_str_digits rt)
                (str_or (headers_get (headers req) "Content-Length" "0")
                   "0") ;;
    raw <- (if negb (length =? 0) then rfile_read (rfile req) length
            else Ok empty_object_bytes) ;;
    body <- try_except (json_loads rt (bytes_or raw empty_object_bytes))
              JSONDecodeError (fun _ => Ok (PDict [])) ;;
    worker_payload <- py_get body (u "payload") (PDict []) ;;
    r <- try_except_Exception
           (ip <- get_public_ip env ;;
            Ok (PStr ip, u "ok", PNone))
           (fun exc =>
              Ok (PNone, u "error", PStr (ip_check_failed exc))) ;;
    let '(ip, status, error) := r in
    let response :=
      [ (u "status", PStr status);
        (u "error", error);
        (u "echo", worker_payload);
        (u "public_ip", ip);
        (u "timestamp", PFloat (time_time env)) ] in
    Ok (_json_response HTTPStatus.OK response).

End Worker.

(** ** What a client observes of an answer *)

(** The status of the answer: the code of the first [send_response] or
    [send_error]. *)
Fixpoint sent_status (t : list wire_op) : option Z :=
  match t with
  | [] => None
  | send_response code :: _ => Some code
  | send_error code _ :: _ => Some code
  | _ :: t' => sent_status t'
  end.

(** The value of the first header the handler sent under [keyword]. *)
Fixpoint sent_header (t : list wire_op) (keyword : string) : option string :=
  match t with
  | [] => None
  | send_header k v :: t' =>
      if String.eqb k keyword then Some v else sent_header t' keyword
  | _ :: t' => sent_header t' keyword
  end.

(** The bytes the handler wrote to [wfile]. *)
Fixpoint sent_body (t : list wire_op) : list byte :=
  match t with
  | [] => []
  | wfile_write b :: t' => (b ++ sent_body t')%list
  | _ :: t' => sent_body t'
  end.

(** The answer to a request for an unknown path. *)
Definition not_found_answer : list wire_op :=
  [send_error HTTPStatus.NOT_FOUND "unknown path"].

(** [t] is [s] with white space removed at both ends, and nothing else. *)
Definition starts_nonspace (s : ustr) : Prop :=
  match s with
  | c :: _ => isspace c = false
  | [] => True
  end.

Definition stripped_of (s t : ustr) : Prop :=
  exists l r : ustr,
    s = (l ++ t ++ r)%list
    /\ forallb isspace l = true /\ forallb isspace r = true
    /\ starts_nonspace t /\ starts_nonspace (List.rev t).

(** The keys of a response dictionary, in order. *)
Definition keys (d : list (ustr * pyval)) : list ustr := map fst d.

(** ** Concrete runtimes, surroundings and requests *)

(** A runtime that knows [json.loads] on four inputs: the empty object, the
    array [[1]], the object [{"payload": {"a": 1}}] and the byte 0xFF, which
    is not UTF-8; anything else is reported as malformed JSON. *)
Definition sample_json_loads (raw : list byte) : result pyval :=
  let s := string_of_list_byte raw in
  if String.eqb s "{}" then Ok (PDict [])
  else if String.eqb s "[1]" then Ok (PList [PInt 1])
  else if String.eqb s ("{" ++ quoted "payload" ++ ": {" ++ quoted "a"
                          ++ ": 1}}")
       then Ok (PDict [(u "payload", PDict [(u "a", PInt 1)])])
  else if String.eqb s (String (ascii_of_N 255) "")
       then Raise (mkExn UnicodeDecodeError
                     (u "'utf-8' codec can't decode byte 0xff in position 0"))
  else Raise (mkExn JSONDecodeError (u "Expecting value")).

Definition sample_runtime : PyRuntime := {|
  json_loads := sample_json_loads;
  float_repr := fun _ => "1762282800.5";
  exc_repr := fun e => exn_msg e;
  int_max_str_digits := 4300
|}.

(** 2025-11-04 19:00:00.5 UTC as a binary64: 3524565601 * 2^-1. *)
Definition sample_now : spec_float := S754_finite false 3524565601 (-1).

Definition response_with (code : Z) (body : string) : Response := {|
  status_code := code;
  reason := u "";
  url := u "https://ifconfig.me/";
  text := u body
|}.

Definition env_ok : Env := {|
  requests_get := Ok (response_with 200 " 203.0.113.7 ");
  time_time := sample_now
|}.

Definition env_not_modified : Env := {|
  requests_get := Ok (response_with 304 " 203.0.113.7 ");
  time_time := sample_now
|}.

Definition env_timeout : Env := {|
  requests_get := Raise (mkExn Timeout (u "ReadTimeout()"));
  time_time := sample_now
|}.

(** The answer to a GET whose lookup found 203.0.113.7 at [sample_now]. *)
Definition sample_ok_answer : list wire_op :=
  _json_response sample_runtime HTTPStatus.OK
    [ (u "status", PStr (u "ok"));
      (u "public_ip", PStr (u "203.0.113.7"));
      (u "timestamp", PFloat sample_now) ].

Definition get_ip : Request :=
  {| path := "/ip"; headers := []; rfile := [] |}.

Definition get_foo : Request :=
  {| path := "/foo"; headers := []; rfile := [] |}.

Definition post_no_body : Request :=
  {| path := "/invoke"; headers := []; rfile := [] |}.

(** POST /invoke with the three bytes [[1]]. *)
Definition post_array : Request := {|
  path := "/invoke";
  headers := [("Content-Length", "3")];
  rfile := [x5b; x31; x5d]
|}.

(** POST /invoke with the single byte 0xFF. *)
Definition post_not_utf8 : Request := {|
  path := "/invoke";
  headers := [("Content-Length", "1")];
  rfile := [xff]
|}.

(** POST /invoke with a Content-Length that is no number. *)
Definition post_length_abc : Request := {|
  path := "/invoke";
  headers := [("Content-Length", "abc")];
  rfile := [x7b; x7d]
|}.

(** ** Further requests and predicates used by the properties *)

(** Every character of [s] is ASCII. *)
Fixpoint ascii_only (s : string) : bool :=
  match s with
  | EmptyString => true
  | String c s' => (N_of_ascii c <? 128)%N && ascii_only s'
  end.

(** [req] with the bytes [f] on its [rfile]. *)
Definition with_rfile (req : Request) (f : list byte) : Request :=
  {| path := path req; headers := headers req; rfile := f |}.

(** [req] with the headers [h]. *)
Definition with_headers (req : Request) (h : list (string * string))
    : Request :=
  {| path := path req; headers := h; rfile := rfile req |}.

(** The step of [do_POST] that obtains [raw]: lines 74 and 75 as one
    expression, used to state what the later steps do with [raw]. *)
Definition read_body (rt : PyRuntime) (req : Request) : result (list byte) :=
  length <- py_int (int_max_str_digits rt)
              (str_or (headers_get (headers req) "Content-Length" "0")
                 "0") ;;
  if negb (length =? 0) then rfile_read (rfile req) length
  else Ok empty_object_bytes.

(** The steps of [do_POST] after [raw] is obtained: lines 76 to 98. *)
Definition answer_post (rt : PyRuntime) (env : Env) (raw : list byte)
    : result (list wire_op) :=
  body <- try_except (json_loads rt (bytes_or raw empty_object_bytes))
            JSONDecodeError (fun _ => Ok (PDict [])) ;;
  worker_payload <- py_get body (u "payload") (PDict []) ;;
  r <- try_except_Exception
         (ip <- get_public_ip env ;;
          Ok (PStr ip, u "ok", PNone))
         (fun exc =>
            Ok (PNone, u "error", PStr (ip_check_failed rt exc))) ;;
  let '(ip, status, error) := r in
  let response :=
    [ (u "status", PStr status);
      (u "error", error);
      (u "echo", worker_payload);
      (u "public_ip", ip);
      (u "timestamp", PFloat (time_time env)) ] in
  Ok (_json_response rt HTTPStatus.OK response).

(** POST /invoke with the object [{"payload": {"a": 1}}] as body. *)
Definition post_payload : Request := {|
  path := "/invoke";
  headers := [("Content-Length", "21")];
  rfile := list_byte_of_string
             ("{" ++ quoted "payload" ++ ": {" ++ quoted "a" ++ ": 1}}")
|}.

(** POST /invoke announcing two bytes and sending [{}] followed by more. *)
Definition post_padded : Request := {|
  path := "/invoke";
  headers := [("content-length", "2")];
  rfile := [x7b; x7d; x20; x78; x79]
|}.

(** POST / announcing five bytes and sending none. *)
Definition post_nothing_sent : Request := {|
  path := "/";
  headers := [("Content-Length", "5")];
  rfile := []
|}.

(** A lookup answered with 200 and a body of white space only. *)
Definition env_blank : Env := {|
  requests_get := Ok (response_with 200 "  ");
  time_time := sample_now
|}.

(** ** The error page of the base class *)

(** [BaseHTTPRequestHandler.error_content_type] of the standard library,
    which [StaticIPHandler] does not override. *)
Definition error_content_type : string := "text/html;charset=utf-8".

Definition is_empty {A : Type} (l : list A) : bool :=
  match l with
  | [] => true
  | _ :: _ => false
  end.

(** [BaseHTTPRequestHandler.send_error(code, message)] of the standard
    library, as the calls it makes in turn.  [page] is the rendered error
    page ([error_message_format] filled in and encoded as UTF-8) and
    [command] is [self.command].  The page is left out for a code below 200
    and for 204, 205 and 304, and it is not written in answer to HEAD. *)
Definition send_error_calls (page : list byte) (command : string) (code : Z)
    : list wire_op :=
  let has_body :=
    (200 <=? code) && negb (existsb (Z.eqb code) [204; 205; 304]) in
  ([send_response code; send_header "Connection" "close"]
   ++ (if has_body
       then [ send_header "Content-Type" error_content_type;
              send_header "Content-Length" (py_str_Z (len page)) ]
       else [])
   ++ [end_headers]
   ++ (if has_body && negb (String.eqb command "HEAD")
          && negb (is_empty page)
       then [wfile_write page]
       else []))%list.

(** The calls of an answer with every [send_error] replaced by the calls
    the base class makes for it; [error_page code message] is the page the
    base class renders. *)
Definition on_the_wire (error_page : Z -> string -> list byte)
    (command : string) (t : list wire_op) : list wire_op :=
  flat_map
    (fun op =>
       match op with
       | send_error code message =>
           send_error_calls (error_page code message) command code
       | _ => [op]
       end) t.

Definition newline : string := String (ascii_of_N 10) "".

(** The page CPython 3.11 renders for 404 and a message that needs no HTML
    escaping. *)
Definition sample_error_page (code : Z) (message : string) : list byte :=
  list_byte_of_string
    ("<!DOCTYPE HTML>" ++ newline
     ++ "<html lang=" ++ quoted "en" ++ ">" ++ newline
     ++ "    <head>" ++ newline
     ++ "        <meta charset=" ++ quoted "utf-8" ++ ">" ++ newline
     ++ "        <title>Error response</title>" ++ newline
     ++ "    </head>" ++ newline
     ++ "    <body>" ++ newline
     ++ "        <h1>Error response</h1>" ++ newline
     ++ "        <p>Error code: " ++ py_str_Z code ++ "</p>" ++ newline
     ++ "        <p>Message: " ++ message ++ ".</p>" ++ newline
     ++ "        <p>Error code explanation: " ++ py_str_Z code
     ++ " - Nothing matches the given URI.</p>" ++ newline
     ++ "    </body>" ++ newline
     ++ "</html>" ++ newline).

(** ** Requests handled one after another *)

(** The commands the worker has a method for: the base class calls
    [do_GET] or [do_POST] by the name of the command. *)
Inductive method : Type := GET | POST.

(** One request of a run: its command, what it meets outside the process
    while it is handled, and the request itself. *)
Record Served : Type := {
  served_method : method;
  served_env : Env;
  served_request : Request
}.

Definition serve (rt : PyRuntime) (s : Served) : result (list wire_op) :=
  match served_method s with
  | GET => do_GET rt (served_env s) (served_request s)
  | POST => do_POST rt (served_env s) (served_request s)
  end.

(** One hour before [sample_now]: 3524558401 * 2^-1. *)
Definition sample_earlier : spec_float := S754_finite false 3524558401 (-1).

(** A runtime that writes the two sample clock readings as Python does. *)
Definition clock_runtime : PyRuntime := {|
  json_loads := sample_json_loads;
  float_repr := fun f => if SFeqb f sample_earlier then "1762279200.5"
                         else "1762282800.5";
  exc_repr := fun e => exn_msg e;
  int_max_str_digits := 4300
|}.

(** The lookup succeeds while the clock reads [sample_earlier]. *)
Definition env_earlier : Env := {|
  requests_get := Ok (response_with 200 " 203.0.113.7 ");
  time_time := sample_earlier
|}.

(** GET /ip handled at [sample_now]. *)
Definition served_now : Served :=
  {| served_method := GET; served_env := env_ok; served_request := get_ip |}.

(** GET /ip handled while the clock reads [sample_earlier]. *)
Definition served_earlier : Served :=
  {| served_method := GET; served_env := env_earlier;
     served_request := get_ip |}.

(** * Properties *)

(** ** Sanity checks of the library models *)

Example py_int_12 : py_int 4300 " 12 " = Ok 12.
Proof. reflexivity. Qed.
Example py_int_us : py_int 4300 "-1_000" = Ok (-1000).
Proof. reflexivity. Qed.
Example py_int_abc : py_int 4300 "abc" = Raise invalid_literal.
Proof. reflexivity. Qed.
Example py_int_empty : py_int 4300 "" = Raise invalid_literal.
Proof. reflexivity. Qed.
Example py_int_us2 : py_int 4300 "1__0" = Raise invalid_literal.
Proof. reflexivity. Qed.
Example py_int_us3 : py_int 4300 "1_" = Raise invalid_literal.
Proof. reflexivity. Qed.
Example py_int_sp : py_int 4300 "- 1" = Raise invalid_literal.
Proof. reflexivity. Qed.
Example py_str_Z_0 : py_str_Z 0 = "0".
Proof. reflexivity. Qed.
Example py_str_Z_120 : py_str_Z 120 = "120".
Proof. reflexivity. Qed.
Example py_str_Z_neg : py_str_Z (-7) = "-7".
Proof. reflexivity. Qed.
Example strip_ip : strip (u " 203.0.113.7 ") = u "203.0.113.7".
Proof. reflexivity. Qed.

Example dumps_nested :
  json_dumps (fun _ => "1.5")
    (PDict [(u "echo", PDict [(u "a", PInt 1)]); (u "ip", PNone);
            (u "l", PList [PBool true; PFloat S754_nan])])
  = "{" ++ quoted "echo" ++ ": {" ++ quoted "a" ++ ": 1}, " ++ quoted "ip"
      ++ ": null, " ++ quoted "l" ++ ": [true, NaN]}".
Proof. reflexivity. Qed.

Example escape_newline : escape_char 10 = String backslash "n".
Proof. reflexivity. Qed.

Example escape_e_acute : escape_char 233 = String backslash "u00e9".
Proof. reflexivity. Qed.

Example escape_astral :
  escape_char 128512 = String backslash
    ("ud83d" ++ String backslash "ude00").
Proof. reflexivity. Qed.

Example headers_get_case :
  headers_get [("content-length", "12")] "Content-Length" "0" = "12".
Proof. reflexivity. Qed.

(** ** Routes *)

Lemma path_in_In (p : string) (routes : list string) :
  path_in p routes = true <-> In p routes.
Proof.
  unfold path_in. rewrite existsb_exists. split.
  - intros [x [Hin Heq]]. apply String.eqb_eq in Heq. now subst x.
  - intro Hin. exists p. split; [assumption | apply String.eqb_refl].
Qed.

Lemma path_in_not_In (p : string) (routes : list string) :
  path_in p routes = false <-> ~ In p routes.
Proof.
  rewrite <- path_in_In. destruct (path_in p routes); split; intro H;
    try reflexivity; try discriminate; try (intro; discriminate).
  exfalso. now apply H.
Qed.

(** ** [str.strip] *)

Lemma lstrip_split (s : ustr) :
  exists l, s = (l ++ lstrip s)%list /\ forallb isspace l = true.
Proof.
  induction s as [|c s IH]; simpl.
  - now exists [].
  - destruct (isspace c) eqn:Hc.
    + destruct IH as [l [Hs Hl]]. exists (c :: l). simpl. rewrite Hc, Hl.
      split; [now f_equal | reflexivity].
    + now exists [].
Qed.

Lemma lstrip_starts_nonspace (s : ustr) : starts_nonspace (lstrip s).
Proof.
  induction s as [|c s IH]; simpl; [exact I|].
  destruct (isspace c) eqn:Hc; [assumption | exact Hc].
Qed.

Lemma forallb_rev_true {A : Type} (f : A -> bool) (l : list A) :
  forallb f l = true -> forallb f (List.rev l) = true.
Proof.
  rewrite !forallb_forall. intros H x Hx. apply H. now apply in_rev.
Qed.

Lemma rstrip_split (s : ustr) :
  exists r, s = (rstrip s ++ r)%list /\ forallb isspace r = true.
Proof.
  unfold rstrip. destruct (lstrip_split (List.rev s)) as [l [Hs Hl]].
  exists (List.rev l). split.
  - rewrite <- rev_app_distr, <- Hs. symmetry. apply rev_involutive.
  - now apply forallb_rev_true.
Qed.

Lemma strip_stripped_of (s : ustr) : stripped_of s (strip s).
Proof.
  unfold stripped_of, strip.
  destruct (lstrip_split s) as [l [Hs Hl]].
  destruct (rstrip_split (lstrip s)) as [r [Ht Hr]].
  exists l, r. repeat split; try assumption.
  - now rewrite <- Ht.
  - pose proof (lstrip_starts_nonspace s) as Hn.
    rewrite Ht in Hn. destruct (rstrip (lstrip s)); [exact I | exact Hn].
  - unfold rstrip. rewrite rev_involutive. apply lstrip_starts_nonspace.
Qed.

(** ** The outbound lookup *)

Lemma raise_for_status_error (resp : Response) :
  400 <= status_code resp < 600 ->
  exists e, raise_for_status resp = Raise e /\ exn_cls e = HTTPError.
Proof.
  intro Hc. unfold raise_for_status.
  destruct ((400 <=? status_code resp) && (status_code resp <? 500)) eqn:H4.
  - destruct (u (py_str_Z (status_code resp))); cbn; eauto.
  - assert (H5 : (500 <=? status_code resp) && (status_code resp <? 600) = true).
    { apply andb_false_iff in H4. apply andb_true_iff.
      rewrite Z.leb_le, Z.ltb_lt. destruct H4 as [H4|H4].
      - apply Z.leb_gt in H4. lia.
      - apply Z.ltb_ge in H4. lia. }
    rewrite H5. destruct (u (py_str_Z (status_code resp))); cbn; eauto.
Qed.

Lemma raise_for_status_pass (resp : Response) :
  ~ (400 <= status_code resp < 600) -> raise_for_status resp = Ok tt.
Proof.
  intro Hc. unfold raise_for_status.
  destruct ((400 <=? status_code resp) && (status_code resp <? 500)) eqn:H4.
  - apply andb_true_iff in H4. rewrite Z.leb_le, Z.ltb_lt in H4. lia.
  - destruct ((500 <=? status_code resp) && (status_code resp <? 600)) eqn:H5.
    + apply andb_true_iff in H5. rewrite Z.leb_le, Z.ltb_lt in H5. lia.
    + reflexivity.
Qed.

(** C2, as the code has it.  [get_public_ip] raises exactly when the
    outbound GET raises (a timeout, a failed connection or any other error
    of the HTTP client) or the status of the response is in 400..599;
    for every other status, 2xx or not, it returns the text of the response
    with the white space at both ends removed and nothing else changed. *)
Theorem get_public_ip_raises_iff (env : Env) :
  (raises (get_public_ip env) <->
     raises (requests_get env)
     \/ exists resp, requests_get env = Ok resp
                     /\ 400 <= status_code resp < 600)
  /\ (forall resp,
        requests_get env = Ok resp ->
        ~ (400 <= status_code resp < 600) ->
        get_public_ip env = Ok (strip (text resp))
        /\ stripped_of (text resp) (strip (text resp))).
Proof.
  unfold get_public_ip, raises. split.
  - destruct (requests_get env) as [resp|e]; cbn.
    + split.
      * intros [e He].
        destruct (Z_le_dec 400 (status_code resp)) as [Hl|Hl];
          [destruct (Z_lt_dec (status_code resp) 600) as [Hu|Hu]|].
        -- right. exists resp. split; [reflexivity | lia].
        -- rewrite raise_for_status_pass in He by lia. discriminate.
        -- rewrite raise_for_status_pass in He by lia. discriminate.
      * intros [[e He]|[resp' [Hr Hc]]]; [discriminate|].
        injection Hr as <-.
        destruct (raise_for_status_error resp Hc) as [e [He _]].
        rewrite He. cbn. now exists e.
    + split; [intros _; left; now exists e | intros _; now exists e].
  - intros resp Hr Hc. rewrite Hr. cbn.
    rewrite (raise_for_status_pass resp Hc). cbn.
    split; [reflexivity | apply strip_stripped_of].
Qed.

(** C2, as the claim states it, fails: on a response with status 304,
    outside the 2xx range, [get_public_ip] raises nothing and returns the
    stripped body. *)
Lemma get_public_ip_not_modified :
  requests_get env_not_modified = Ok (response_with 304 " 203.0.113.7 ")
  /\ ~ (200 <= status_code (response_with 304 " 203.0.113.7 ") <= 299)
  /\ ~ raises (get_public_ip env_not_modified)
  /\ get_public_ip env_not_modified = Ok (u "203.0.113.7").
Proof.
  repeat split.
  - cbn. lia.
  - intros [e He]. discriminate He.
Qed.

(** ** GET *)

Lemma json_response_status (rt : PyRuntime) (status : Z)
    (payload : list (ustr * pyval)) :
  sent_status (_json_response rt status payload) = Some status.
Proof. reflexivity. Qed.

Lemma json_response_body (rt : PyRuntime) (status : Z)
    (payload : list (ustr * pyval)) :
  sent_body (_json_response rt status payload)
  = encode_utf8 (json_dumps (float_repr rt) (PDict payload)).
Proof. unfold _json_response. cbn [sent_body]. apply app_nil_r. Qed.

(** C3.  A GET for [/], [/healthz] or [/ip] whose lookup returns [s] is
    answered with status 200 and the JSON object with status "ok",
    public_ip [s] and the timestamp; the answer is the same for the three
    paths. *)
Theorem do_GET_lookup_ok (rt : PyRuntime) (env : Env) (req : Request)
    (s : ustr) :
  In (path req) ["/"; "/healthz"; "/ip"] ->
  get_public_ip env = Ok s ->
  exists t,
    do_GET rt env req = Ok t
    /\ sent_status t = Some 200
    /\ sent_body t
       = encode_utf8 (json_dumps (float_repr rt)
           (PDict [ (u "status", PStr (u "ok"));
                    (u "public_ip", PStr s);
                    (u "timestamp", PFloat (time_time env)) ]))
    /\ forall req',
         In (path req') ["/"; "/healthz"; "/ip"] ->
         do_GET rt env req' = Ok t.
Proof.
  intros Hp Hs.
  assert (Hall : forall r, In (path r) ["/"; "/healthz"; "/ip"] ->
            do_GET rt env r
            = Ok (_json_response rt HTTPStatus.OK
                    [ (u "status", PStr (u "ok"));
                      (u "public_ip", PStr s);
                      (u "timestamp", PFloat (time_time env)) ])).
  { intros r Hr. unfold do_GET. apply path_in_In in Hr. rewrite Hr, Hs.
    reflexivity. }
  eexists. split; [apply (Hall req Hp)|].
  split; [apply json_response_status|].
  split; [apply json_response_body | exact Hall].
Qed.

Lemma do_GET_lookup_ok_witness :
  In (path get_ip) ["/"; "/healthz"; "/ip"]
  /\ get_public_ip env_ok = Ok (u "203.0.113.7")
  /\ exists t,
       do_GET sample_runtime env_ok get_ip = Ok t
       /\ sent_status t = Some 200
       /\ sent_body t
          = encode_utf8 (json_dumps (float_repr sample_runtime)
              (PDict [ (u "status", PStr (u "ok"));
                       (u "public_ip", PStr (u "203.0.113.7"));
                       (u "timestamp", PFloat (time_time env_ok)) ]))
       /\ forall req',
            In (path req') ["/"; "/healthz"; "/ip"] ->
            do_GET sample_runtime env_ok req' = Ok t.
Proof.
  assert (Hp : In (path get_ip) ["/"; "/healthz"; "/ip"])
    by (simpl; auto).
  assert (Hs : get_public_ip env_ok = Ok (u "203.0.113.7"))
    by reflexivity.
  split; [exact Hp|]. split; [exact Hs|].
  exact (do_GET_lookup_ok sample_runtime env_ok get_ip _ Hp Hs).
Defined.

(** C4.  A GET for [/], [/healthz] or [/ip] whose lookup raises [exc] is
    answered with status 502 and the JSON object with status "error", the
    error string "ip_check_failed: " followed by [repr(exc)], which is not
    null, and the timestamp. *)
Theorem do_GET_lookup_fails (rt : PyRuntime) (env : Env) (req : Request)
    (exc : exn) :
  In (path req) ["/"; "/healthz"; "/ip"] ->
  get_public_ip env = Raise exc ->
  exists t error,
    do_GET rt env req = Ok t
    /\ sent_status t = Some 502
    /\ error = PStr (u "ip_check_failed: " ++ exc_repr rt exc)%list
    /\ error <> PNone
    /\ sent_body t
       = encode_utf8 (json_dumps (float_repr rt)
           (PDict [ (u "status", PStr (u "error"));
                    (u "error", error);
                    (u "timestamp", PFloat (time_time env)) ])).
Proof.
  intros Hp Hs. do 2 eexists. split.
  - unfold do_GET. apply path_in_In in Hp. rewrite Hp, Hs. reflexivity.
  - split; [apply json_response_status|].
    split; [reflexivity|]. split; [discriminate|].
    apply json_response_body.
Qed.

Lemma do_GET_lookup_fails_witness :
  In (path get_ip) ["/"; "/healthz"; "/ip"]
  /\ get_public_ip env_timeout = Raise (mkExn Timeout (u "ReadTimeout()"))
  /\ exists t error,
       do_GET sample_runtime env_timeout get_ip = Ok t
       /\ sent_status t = Some 502
       /\ error = PStr (u "ip_check_failed: ReadTimeout()")
       /\ error <> PNone
       /\ sent_body t
          = encode_utf8 (json_dumps (float_repr sample_runtime)
              (PDict [ (u "status", PStr (u "error"));
                       (u "error", error);
                       (u "timestamp", PFloat (time_time env_timeout)) ])).
Proof.
  assert (Hp : In (path get_ip) ["/"; "/healthz"; "/ip"])
    by (simpl; auto).
  assert (Hs : get_public_ip env_timeout
               = Raise (mkExn Timeout (u "ReadTimeout()")))
    by reflexivity.
  split; [exact Hp|]. split; [exact Hs|].
  exact (do_GET_lookup_fails sample_runtime env_timeout get_ip _ Hp Hs).
Defined.

(** ** Unknown paths *)

(** What the client of an unknown path receives. *)
Lemma not_found_on_the_wire (error_page : Z -> string -> list byte)
    (command : string) :
  command <> "HEAD" ->
  on_the_wire error_page command not_found_answer
  = ([ send_response 404;
       send_header "Connection" "close";
       send_header "Content-Type" error_content_type;
       send_header "Content-Length"
         (py_str_Z (len (error_page 404 "unknown path")));
       end_headers ]
     ++ (if is_empty (error_page 404 "unknown path") then []
         else [wfile_write (error_page 404 "unknown path")]))%list.
Proof.
  intro Hc. apply String.eqb_neq in Hc.
  unfold on_the_wire, not_found_answer, send_error_calls,
    HTTPStatus.NOT_FOUND.
  cbn [flat_map]. rewrite Hc.
  change ((200 <=? 404) && negb (existsb (Z.eqb 404) [204; 205; 304]))
    with true.
  cbn [negb andb app].
  destruct (is_empty (error_page 404 "unknown path")); reflexivity.
Qed.

(** C6, as the code has it.  A GET outside [/], [/healthz], [/ip] and a
    POST outside [/invoke], [/] are answered by one call,
    [send_error(404, "unknown path")].  On the wire that is status 404 and
    the error page of the base class, sent as text/html;charset=utf-8 with
    its length: an HTML page, neither plain text nor JSON. *)
Theorem unknown_path_error_page (rt : PyRuntime) (env : Env) (req : Request)
    (error_page : Z -> string -> list byte) :
  (~ In (path req) ["/"; "/healthz"; "/ip"] ->
   do_GET rt env req = Ok not_found_answer)
  /\ (~ In (path req) ["/invoke"; "/"] ->
      do_POST rt env req = Ok not_found_answer)
  /\ forall command,
       command <> "HEAD" ->
       let w := on_the_wire error_page command not_found_answer in
       let page := error_page 404 "unknown path" in
       sent_status w = Some 404
       /\ sent_header w "Content-Type" = Some "text/html;charset=utf-8"
       /\ prefix "text/plain" "text/html;charset=utf-8" = false
       /\ sent_header w "Content-Type" <> Some "application/json"
       /\ sent_header w "Content-Length" = Some (py_str_Z (len page))
       /\ sent_body w = page.
Proof.
  split; [|split].
  - intro Hp. unfold do_GET. apply path_in_not_In in Hp. now rewrite Hp.
  - intro Hp. unfold do_POST. apply path_in_not_In in Hp. now rewrite Hp.
  - intros command Hc w page. subst w page.
    rewrite (not_found_on_the_wire error_page command Hc).
    cbn [app sent_status sent_header String.eqb Ascii.eqb Bool.eqb].
    repeat split; try reflexivity; try discriminate.
    destruct (error_page 404 "unknown path") as [|b page];
      cbn [is_empty sent_body]; [reflexivity | apply app_nil_r].
Qed.

Lemma unknown_path_error_page_witness :
  ~ In (path get_foo) ["/"; "/healthz"; "/ip"]
  /\ ~ In (path get_foo) ["/invoke"; "/"]
  /\ do_GET sample_runtime env_ok get_foo = Ok not_found_answer
  /\ do_POST sample_runtime env_ok get_foo = Ok not_found_answer
  /\ sent_status (on_the_wire sample_error_page "GET" not_found_answer)
     = Some 404
  /\ sent_body (on_the_wire sample_error_page "GET" not_found_answer)
     = sample_error_page 404 "unknown path".
Proof.
  assert (Hg : ~ In (path get_foo) ["/"; "/healthz"; "/ip"]).
  { cbn. intros [H|[H|[H|[]]]]; discriminate H. }
  assert (Hp : ~ In (path get_foo) ["/invoke"; "/"]).
  { cbn. intros [H|[H|[]]]; discriminate H. }
  assert (Hc : "GET" <> "HEAD") by discriminate.
  destruct (unknown_path_error_page sample_runtime env_ok get_foo
              sample_error_page) as [HG [HP HW]].
  destruct (HW "GET" Hc) as [Hs [_ [_ [_ [_ Hb]]]]].
  split; [exact Hg|]. split; [exact Hp|].
  split; [exact (HG Hg)|]. split; [exact (HP Hp)|].
  split; [exact Hs | exact Hb].
Defined.

(** C6, as the claim states it, fails: the body sent for an unknown path
    is not plain text.  For GET /foo the base class sends its HTML error
    page under the content type text/html. *)
Lemma unknown_path_page_is_html :
  do_GET sample_runtime env_ok get_foo = Ok not_found_answer
  /\ sent_header (on_the_wire sample_error_page "GET" not_found_answer)
       "Content-Type" = Some "text/html;charset=utf-8"
  /\ prefix "text/plain" "text/html;charset=utf-8" = false
  /\ prefix "<!DOCTYPE HTML>"
       (string_of_list_byte
          (sent_body (on_the_wire sample_error_page "GET" not_found_answer)))
     = true.
Proof. repeat split. Qed.

Example get_foo_not_found :
  do_GET sample_runtime env_ok get_foo = Ok [send_error 404 "unknown path"].
Proof. reflexivity. Qed.

Example post_foo_not_found :
  do_POST sample_runtime env_ok get_foo = Ok [send_error 404 "unknown path"].
Proof. reflexivity. Qed.

Example get_invoke_not_found :
  do_GET sample_runtime env_ok post_no_body
  = Ok [send_error 404 "unknown path"].
Proof. reflexivity. Qed.

(** ** [int] reads back what [str] writes *)

Lemma transform_string_of_uint (d : uint) :
  transform_decimal_and_space
    (list_ascii_of_string (NilEmpty.string_of_uint d))
  = list_ascii_of_string (NilEmpty.string_of_uint d).
Proof. induction d; cbn; congruence. Qed.

Lemma scan_digits_string_of_uint (d : uint) :
  scan_digits false (list_ascii_of_string (NilEmpty.string_of_uint d))
  = Ok (d, []).
Proof. induction d; cbn; [reflexivity | rewrite IHd; reflexivity ..]. Qed.

Ltac scan_first_digit :=
  match goal with
  | |- context [scan_digits false (?c :: list_ascii_of_string ?s)] =>
      change (scan_digits false (c :: list_ascii_of_string s))
        with (r <- scan_digits false (list_ascii_of_string s) ;;
              Ok (digit_cons c (fst r), snd r))
  end;
  rewrite scan_digits_string_of_uint; reflexivity.

Lemma py_int_digits (d : uint) :
  d <> Nil -> py_int 0 (NilEmpty.string_of_uint d) = Ok (Z.of_uint d).
Proof.
  intro Hd. unfold py_int. rewrite transform_string_of_uint.
  destruct d; [contradiction | ..];
    cbn [NilEmpty.string_of_uint list_ascii_of_string];
    match goal with
    | |- context [skip_space (?c :: list_ascii_of_string ?s)] =>
        change (skip_space (c :: list_ascii_of_string s))
          with (c :: list_ascii_of_string s)
    end;
    cbn -[scan_digits Z.of_uint skip_space]; scan_first_digit.
Qed.

Lemma py_int_minus_digits (d : uint) :
  d <> Nil ->
  py_int 0 (String "-" (NilEmpty.string_of_uint d)) = Ok (- Z.of_uint d).
Proof.
  intro Hd. unfold py_int.
  cbn [list_ascii_of_string transform_decimal_and_space].
  change (N_of_ascii "-" <? 127)%N with true. cbn iota.
  rewrite transform_string_of_uint.
  change (skip_space ("-"%char
            :: list_ascii_of_string (NilEmpty.string_of_uint d)))
    with ("-"%char :: list_ascii_of_string (NilEmpty.string_of_uint d)).
  destruct d; [contradiction | ..];
    cbn [NilEmpty.string_of_uint list_ascii_of_string];
    cbn -[scan_digits Z.of_uint skip_space]; scan_first_digit.
Qed.

Lemma string_of_uint_nonnil (d : uint) :
  d <> Nil -> NilZero.string_of_uint d = NilEmpty.string_of_uint d.
Proof. destruct d; [congruence | reflexivity ..]. Qed.

Lemma py_int_py_str_Z (n : Z) : py_int 0 (py_str_Z n) = Ok n.
Proof.
  unfold py_str_Z. rewrite <- (DecimalZ.of_to n) at 2.
  destruct n as [|p|p]; cbn [Z.to_int Z.of_int NilZero.string_of_int].
  - reflexivity.
  - pose proof (DecimalPos.Unsigned.to_uint_nonnil p) as Hp.
    rewrite (string_of_uint_nonnil _ Hp). now apply py_int_digits.
  - pose proof (DecimalPos.Unsigned.to_uint_nonnil p) as Hp.
    rewrite (string_of_uint_nonnil _ Hp). now apply py_int_minus_digits.
Qed.

(** ** The shape of every answer *)

Lemma do_GET_inv (rt : PyRuntime) (env : Env) (req : Request)
    (t : list wire_op) :
  do_GET rt env req = Ok t ->
  (~ In (path req) ["/"; "/healthz"; "/ip"] /\ t = not_found_answer)
  \/ In (path req) ["/"; "/healthz"; "/ip"]
     /\ ((exists s,
            get_public_ip env = Ok s
            /\ t = _json_response rt 200
                     [ (u "status", PStr (u "ok"));
                       (u "public_ip", PStr s);
                       (u "timestamp", PFloat (time_time env)) ])
         \/ (exists exc,
               get_public_ip env = Raise exc
               /\ t = _json_response rt 502
                        [ (u "status", PStr (u "error"));
                          (u "error", PStr (ip_check_failed rt exc));
                          (u "timestamp", PFloat (time_time env)) ])).
Proof.
  unfold do_GET.
  destruct (path_in (path req) ["/"; "/healthz"; "/ip"]) eqn:Hp; cbn [negb].
  - apply path_in_In in Hp. intro H. right. split; [assumption|].
    destruct (get_public_ip env) as [s|exc]; cbn in H; injection H as <-;
      [left | right]; eexists; split; reflexivity.
  - apply path_in_not_In in Hp. intros [= <-]. left. now split.
Qed.

Lemma do_POST_inv (rt : PyRuntime) (env : Env) (req : Request)
    (t : list wire_op) :
  do_POST rt env req = Ok t ->
  (~ In (path req) ["/invoke"; "/"] /\ t = not_found_answer)
  \/ In (path req) ["/invoke"; "/"]
     /\ exists worker_payload,
          (exists s,
             get_public_ip env = Ok s
             /\ t = _json_response rt 200
                      [ (u "status", PStr (u "ok"));
                        (u "error", PNone);
                        (u "echo", worker_payload);
                        (u "public_ip", PStr s);
                        (u "timestamp", PFloat (time_time env)) ])
          \/ (exists exc,
                get_public_ip env = Raise exc
                /\ t = _json_response rt 200
                         [ (u "status", PStr (u "error"));
                           (u "error", PStr (ip_check_failed rt exc));
                           (u "echo", worker_payload);
                           (u "public_ip", PNone);
                           (u "timestamp", PFloat (time_time env)) ]).
Proof.
  unfold do_POST.
  destruct (path_in (path req) ["/invoke"; "/"]) eqn:Hp; cbn [negb].
  - apply path_in_In in Hp. intro H. right. split; [assumption|].
    destruct (py_int _ _) as [n|?]; cbn [bind] in H; [|discriminate].
    destruct (if negb (n =? 0) then _ else _) as [raw|?];
      cbn [bind] in H; [|discriminate].
    destruct (try_except _ _ _) as [body|?]; cbn [bind] in H; [|discriminate].
    destruct (py_get _ _ _) as [worker_payload|?];
      cbn [bind] in H; [|discriminate].
    exists worker_payload.
    destruct (get_public_ip env) as [s|exc]; cbn in H; injection H as <-;
      [left | right]; eexists; split; reflexivity.
  - apply path_in_not_In in Hp. intros [= <-]. left. now split.
Qed.

Lemma json_response_headers (rt : PyRuntime) (status : Z)
    (payload : list (ustr * pyval)) :
  let t := _json_response rt status payload in
  sent_header t "Content-Type" = Some "application/json"
  /\ sent_header t "Content-Length" = Some (py_str_Z (len (sent_body t))).
Proof.
  cbn zeta. rewrite json_response_body. split; reflexivity.
Qed.

(** C7.  Every JSON answer of the handler, that is every answer of
    [do_GET] and [do_POST] other than the error page for an unknown path,
    carries the Content-Type application/json and a Content-Length which,
    read as a decimal integer, is the number of bytes of the serialized
    JSON body. *)
Theorem json_answer_content_length (rt : PyRuntime) (env : Env)
    (req : Request) (t : list wire_op) :
  do_GET rt env req = Ok t \/ do_POST rt env req = Ok t ->
  t <> not_found_answer ->
  exists (status : Z) (payload : list (ustr * pyval)) (v : string),
    t = _json_response rt status payload
    /\ sent_body t = encode_utf8 (json_dumps (float_repr rt) (PDict payload))
    /\ sent_header t "Content-Type" = Some "application/json"
    /\ sent_header t "Content-Length" = Some v
    /\ py_int 0 v = Ok (Z.of_nat (List.length (sent_body t))).
Proof.
  intros H Hnf.
  assert (Hj : exists status payload, t = _json_response rt status payload).
  { destruct H as [H|H].
    - apply do_GET_inv in H.
      destruct H as [[_ H]|[_ [[s [_ H]]|[exc [_ H]]]]];
        [contradiction | eauto ..].
    - apply do_POST_inv in H.
      destruct H as [[_ H]|[_ [w [[s [_ H]]|[exc [_ H]]]]]];
        [contradiction | eauto ..]. }
  destruct Hj as [status [payload ->]].
  exists status, payload, (py_str_Z (len (sent_body
                             (_json_response rt status payload)))).
  split; [reflexivity|]. split; [apply json_response_body|].
  destruct (json_response_headers rt status payload) as [Hct Hcl].
  split; [exact Hct|]. split; [exact Hcl|]. apply py_int_py_str_Z.
Qed.

Lemma json_answer_content_length_witness :
  (do_GET sample_runtime env_ok get_ip = Ok sample_ok_answer
   \/ do_POST sample_runtime env_ok get_ip = Ok sample_ok_answer)
  /\ sample_ok_answer <> not_found_answer
  /\ exists (status : Z) (payload : list (ustr * pyval)) (v : string),
       sample_ok_answer = _json_response sample_runtime status payload
       /\ sent_body sample_ok_answer
          = encode_utf8 (json_dumps (float_repr sample_runtime)
                           (PDict payload))
       /\ sent_header sample_ok_answer "Content-Type"
          = Some "application/json"
       /\ sent_header sample_ok_answer "Content-Length" = Some v
       /\ py_int 0 v
          = Ok (Z.of_nat (List.length (sent_body sample_ok_answer))).
Proof.
  assert (H1 : do_GET sample_runtime env_ok get_ip = Ok sample_ok_answer
               \/ do_POST sample_runtime env_ok get_ip = Ok sample_ok_answer)
    by (left; reflexivity).
  assert (H2 : sample_ok_answer <> not_found_answer) by discriminate.
  split; [exact H1|]. split; [exact H2|].
  exact (json_answer_content_length sample_runtime env_ok get_ip _ H1 H2).
Defined.

Example get_ip_answer :
  do_GET sample_runtime env_ok get_ip
  = Ok [ send_response 200;
         send_header "Content-Type" "application/json";
         send_header "Content-Length" "71";
         end_headers;
         wfile_write
           (list_byte_of_string
              ("{" ++ quoted "status" ++ ": " ++ quoted "ok" ++ ", "
                   ++ quoted "public_ip" ++ ": " ++ quoted "203.0.113.7"
                   ++ ", " ++ quoted "timestamp" ++ ": 1762282800.5}")) ].
Proof. reflexivity. Qed.

(** ** Keys of the answers *)

(** C10.  The answer to an accepted GET has the keys status, public_ip,
    timestamp and no error key when the lookup succeeds, and the keys
    status, error, timestamp and no public_ip key when it fails.  Every
    answer to an accepted POST has the five keys status, error, echo,
    public_ip, timestamp, with error null when the lookup succeeds and
    public_ip null when it fails. *)
Theorem answer_keys (rt : PyRuntime) (env : Env) (req : Request) :
  (In (path req) ["/"; "/healthz"; "/ip"] ->
   exists status payload,
     do_GET rt env req = Ok (_json_response rt status payload)
     /\ ((exists s, get_public_ip env = Ok s)
         /\ keys payload = [u "status"; u "public_ip"; u "timestamp"]
         /\ dict_find payload (u "error") = None
         \/ (exists exc, get_public_ip env = Raise exc)
            /\ keys payload = [u "status"; u "error"; u "timestamp"]
            /\ dict_find payload (u "public_ip") = None))
  /\ (forall t,
        In (path req) ["/invoke"; "/"] ->
        do_POST rt env req = Ok t ->
        exists payload,
          t = _json_response rt 200 payload
          /\ keys payload
             = [u "status"; u "error"; u "echo"; u "public_ip";
                u "timestamp"]
          /\ ((exists s,
                 get_public_ip env = Ok s
                 /\ dict_find payload (u "error") = Some PNone
                 /\ dict_find payload (u "public_ip") = Some (PStr s))
              \/ (exists exc,
                    get_public_ip env = Raise exc
                    /\ dict_find payload (u "public_ip") = Some PNone
                    /\ dict_find payload (u "error")
                       = Some (PStr (ip_check_failed rt exc))))).
Proof.
  split.
  - intro Hp. unfold do_GET. apply path_in_In in Hp. rewrite Hp. cbn [negb].
    destruct (get_public_ip env) as [s|exc]; do 2 eexists;
      (split; [reflexivity|]); [left | right];
      (split; [eexists; reflexivity|]); split; reflexivity.
  - intros t Hp H. apply do_POST_inv in H.
    destruct H as [[Hn _]|[_ [w [[s [Hs ->]]|[exc [Hs ->]]]]]];
      [contradiction | ..]; eexists; (split; [reflexivity|]);
      (split; [reflexivity|]); [left | right];
      eexists; (split; [exact Hs|]); split; reflexivity.
Qed.

Example post_payload_echoed :
  json_loads sample_runtime
    (list_byte_of_string
       ("{" ++ quoted "payload" ++ ": {" ++ quoted "a" ++ ": 1}}"))
  = Ok (PDict [(u "payload", PDict [(u "a", PInt 1)])])
  /\ do_POST sample_runtime env_timeout
       {| path := "/invoke";
          headers := [("Content-Length", "21")];
          rfile := list_byte_of_string
                     ("{" ++ quoted "payload" ++ ": {" ++ quoted "a"
                          ++ ": 1}}") |}
     = Ok (_json_response sample_runtime 200
             [ (u "status", PStr (u "error"));
               (u "error", PStr (u "ip_check_failed: ReadTimeout()"));
               (u "echo", PDict [(u "a", PInt 1)]);
               (u "public_ip", PNone);
               (u "timestamp", PFloat sample_now) ]).
Proof. split; reflexivity. Qed.

(** ** Content-Length that is not a number *)

Lemma scan_digits_raises_ValueError (s : list ascii) :
  forall (prev_us : bool) (e : exn),
    scan_digits prev_us s = Raise e -> exn_cls e = ValueError.
Proof.
  induction s as [|c s IH]; intros prev_us e; cbn [scan_digits].
  - destruct prev_us; [intros [= <-]; reflexivity | discriminate].
  - destruct (is_digit c).
    + destruct (scan_digits false s) as [r|e'] eqn:Hs; cbn [bind];
        [discriminate | intros [= <-]; exact (IH _ _ Hs)].
    + destruct (Ascii.eqb c "_"); destruct prev_us;
        try (intros [= <-]; reflexivity); try discriminate; apply IH.
Qed.

Lemma py_int_raises_ValueError (max_digits : nat) (s : string) (e : exn) :
  py_int max_digits s = Raise e -> exn_cls e = ValueError.
Proof.
  unfold py_int.
  destruct (match skip_space _ with [] => _ | c :: s' => _ end) as [neg s2].
  destruct s2 as [|c s2]; [intros [= <-]; reflexivity|].
  destruct (Ascii.eqb c "_"); [intros [= <-]; reflexivity|].
  destruct (scan_digits false (c :: s2)) as [r|e'] eqn:Hs; cbn [bind].
  - destruct (fst r); destruct (skip_space (snd r));
      try (intros [= <-]; reflexivity);
      (destruct (_ && _)%bool; [intros [= <-]; reflexivity | discriminate]).
  - intros [= <-]. exact (scan_digits_raises_ValueError _ _ _ Hs).
Qed.

(** C9.  On a POST to an accepted path whose Content-Length header is
    present, not empty and not accepted by [int], the conversion raises a
    [ValueError] that leaves [do_POST]: no answer is produced.  A request
    without the header, or with an empty one, is handled as if it said
    Content-Length: 0. *)
Theorem do_POST_content_length_not_integer (rt : PyRuntime) (env : Env)
    (req : Request) (v : string) (e : exn) :
  In (path req) ["/invoke"; "/"] ->
  headers_find (headers req) "Content-Length" = Some v ->
  v <> "" ->
  py_int (int_max_str_digits rt) v = Raise e ->
  do_POST rt env req = Raise e
  /\ exn_cls e = ValueError
  /\ forall req0,
       headers_find (headers req0) "Content-Length" = None
       \/ headers_find (headers req0) "Content-Length" = Some "" ->
       do_POST rt env req0
       = do_POST rt env {| path := path req0;
                           headers := [("Content-Length", "0")];
                           rfile := rfile req0 |}.
Proof.
  intros Hp Hv Hne He. split; [|split].
  - unfold do_POST, headers_get. apply path_in_In in Hp.
    rewrite Hp, Hv. cbn [negb].
    destruct v; [contradiction|]. cbn [str_or]. now rewrite He.
  - exact (py_int_raises_ValueError _ _ _ He).
  - intros req0 H0. unfold do_POST, headers_get. cbn [path headers rfile].
    destruct H0 as [H0|H0]; rewrite H0; reflexivity.
Qed.

Lemma do_POST_content_length_not_integer_witness :
  In (path post_length_abc) ["/invoke"; "/"]
  /\ headers_find (headers post_length_abc) "Content-Length" = Some "abc"
  /\ "abc" <> ""
  /\ py_int (int_max_str_digits sample_runtime) "abc" = Raise invalid_literal
  /\ do_POST sample_runtime env_ok post_length_abc = Raise invalid_literal
  /\ exn_cls invalid_literal = ValueError.
Proof.
  assert (Hp : In (path post_length_abc) ["/invoke"; "/"])
    by (simpl; auto).
  assert (Hv : headers_find (headers post_length_abc) "Content-Length"
               = Some "abc") by reflexivity.
  assert (Hne : "abc" <> "") by discriminate.
  assert (He : py_int (int_max_str_digits sample_runtime) "abc"
               = Raise invalid_literal) by reflexivity.
  split; [exact Hp|]. split; [exact Hv|]. split; [exact Hne|].
  split; [exact He|].
  pose proof (do_POST_content_length_not_integer sample_runtime env_ok
                post_length_abc "abc" invalid_literal Hp Hv Hne He) as H.
  split; [exact (proj1 H) | exact (proj1 (proj2 H))].
Defined.

(** ** Request bodies *)


(** C1 at the input where the code leaves the claim: a POST to an accepted
    path whose body is valid JSON but not an object makes [body.get] raise
    an [AttributeError], which nothing catches; the handler produces no
    answer, neither the 200 nor any other. *)
Theorem do_POST_body_not_object (rt : PyRuntime) (env : Env) (req : Request)
    (n : Z) (raw : list byte) (body : pyval) :
  In (path req) ["/invoke"; "/"] ->
  py_int (int_max_str_digits rt)
    (str_or (headers_get (headers req) "Content-Length" "0") "0") = Ok n ->
  n <> 0 ->
  rfile_read (rfile req) n = Ok raw ->
  json_loads rt (bytes_or raw empty_object_bytes) = Ok body ->
  (forall d, body <> PDict d) ->
  exists e, do_POST rt env req = Raise e /\ exn_cls e = AttributeError.
Proof.
  intros Hp Hn Hz Hr Hl Hb. apply path_in_In in Hp. apply Z.eqb_neq in Hz.
  unfold do_POST. rewrite Hp, Hn. cbn [negb bind]. rewrite Hz, Hr.
  cbn [negb bind]. rewrite Hl. cbn [try_except bind].
  destruct body; cbn [py_get bind]; try (eexists; split; reflexivity).
  now elim (Hb d).
Qed.

Lemma do_POST_body_not_object_witness :
  In (path post_array) ["/invoke"; "/"]
  /\ py_int (int_max_str_digits sample_runtime)
       (str_or (headers_get (headers post_array) "Content-Length" "0") "0")
     = Ok 3
  /\ 3 <> 0
  /\ rfile_read (rfile post_array) 3 = Ok [x5b; x31; x5d]
  /\ json_loads sample_runtime (bytes_or [x5b; x31; x5d] empty_object_bytes)
     = Ok (PList [PInt 1])
  /\ (forall d, PList [PInt 1] <> PDict d)
  /\ exists e,
       do_POST sample_runtime env_ok post_array = Raise e
       /\ exn_cls e = AttributeError.
Proof.
  assert (Hp : In (path post_array) ["/invoke"; "/"]) by (simpl; auto).
  assert (Hn : py_int (int_max_str_digits sample_runtime)
                 (str_or (headers_get (headers post_array)
                            "Content-Length" "0") "0") = Ok 3)
    by reflexivity.
  assert (Hz : 3 <> 0) by discriminate.
  assert (Hr : rfile_read (rfile post_array) 3 = Ok [x5b; x31; x5d])
    by reflexivity.
  assert (Hl : json_loads sample_runtime
                 (bytes_or [x5b; x31; x5d] empty_object_bytes)
               = Ok (PList [PInt 1])) by reflexivity.
  assert (Hb : forall d, PList [PInt 1] <> PDict d) by discriminate.
  repeat (split; [assumption|]).
  exact (do_POST_body_not_object sample_runtime env_ok post_array
           3 _ _ Hp Hn Hz Hr Hl Hb).
Defined.

Example post_array_raises :
  do_POST sample_runtime env_ok post_array
  = Raise (mkExn AttributeError
             (u "'list' object has no attribute 'get'")).
Proof. reflexivity. Qed.

(** C5 at the input where the code leaves the claim: a POST to an accepted
    path on whose body [json.loads] raises something else than
    [JSONDecodeError], as it does with [UnicodeDecodeError] on bytes that
    are not UTF-8, is not treated as the empty object: the exception
    passes the [except json.JSONDecodeError] clause and leaves the handler
    without an answer. *)
Theorem do_POST_body_not_decodable (rt : PyRuntime) (env : Env)
    (req : Request) (n : Z) (raw : list byte) (e : exn) :
  In (path req) ["/invoke"; "/"] ->
  py_int (int_max_str_digits rt)
    (str_or (headers_get (headers req) "Content-Length" "0") "0") = Ok n ->
  n <> 0 ->
  rfile_read (rfile req) n = Ok raw ->
  json_loads rt (bytes_or raw empty_object_bytes) = Raise e ->
  exn_cls e <> JSONDecodeError ->
  do_POST rt env req = Raise e.
Proof.
  intros Hp Hn Hz Hr Hl Hc. apply path_in_In in Hp. apply Z.eqb_neq in Hz.
  unfold do_POST. rewrite Hp, Hn. cbn [negb bind]. rewrite Hz, Hr.
  cbn [negb bind]. rewrite Hl. cbn [try_except].
  destruct (exn_cls e); try reflexivity. now elim Hc.
Qed.

Lemma do_POST_body_not_decodable_witness :
  In (path post_not_utf8) ["/invoke"; "/"]
  /\ py_int (int_max_str_digits sample_runtime)
       (str_or (headers_get (headers post_not_utf8) "Content-Length" "0")
          "0") = Ok 1
  /\ 1 <> 0
  /\ rfile_read (rfile post_not_utf8) 1 = Ok [xff]
  /\ json_loads sample_runtime (bytes_or [xff] empty_object_bytes)
     = Raise (mkExn UnicodeDecodeError
                (u "'utf-8' codec can't decode byte 0xff in position 0"))
  /\ UnicodeDecodeError <> JSONDecodeError
  /\ do_POST sample_runtime env_ok post_not_utf8
     = Raise (mkExn UnicodeDecodeError
                (u "'utf-8' codec can't decode byte 0xff in position 0")).
Proof.
  assert (Hp : In (path post_not_utf8) ["/invoke"; "/"]) by (simpl; auto).
  assert (Hn : py_int (int_max_str_digits sample_runtime)
                 (str_or (headers_get (headers post_not_utf8)
                            "Content-Length" "0") "0") = Ok 1)
    by reflexivity.
  assert (Hz : 1 <> 0) by discriminate.
  assert (Hr : rfile_read (rfile post_not_utf8) 1 = Ok [xff])
    by reflexivity.
  assert (Hl : json_loads sample_runtime (bytes_or [xff] empty_object_bytes)
               = Raise (mkExn UnicodeDecodeError
                          (u "'utf-8' codec can't decode byte 0xff in position 0")))
    by reflexivity.
  assert (Hc : UnicodeDecodeError <> JSONDecodeError) by discriminate.
  repeat (split; [assumption|]).
  exact (do_POST_body_not_decodable sample_runtime env_ok post_not_utf8
           1 _ _ Hp Hn Hz Hr Hl Hc).
Defined.

Example post_no_body_answer :
  do_POST sample_runtime env_ok post_no_body
  = Ok (_json_response sample_runtime 200
          [ (u "status", PStr (u "ok"));
            (u "error", PNone);
            (u "echo", PDict []);
            (u "public_ip", PStr (u "203.0.113.7"));
            (u "timestamp", PFloat sample_now) ]).
Proof. reflexivity. Qed.

(** ** Timestamps across requests *)

(** Every JSON answer carries the clock reading of its own request. *)
Lemma json_answer_carries_reading (rt : PyRuntime) (s : Served)
    (t : list wire_op) :
  serve rt s = Ok t ->
  t <> not_found_answer ->
  exists code payload,
    t = _json_response rt code payload
    /\ dict_find payload (u "timestamp")
       = Some (PFloat (time_time (served_env s))).
Proof.
  unfold serve. intros H Hnf. destruct (served_method s).
  - apply do_GET_inv in H.
    destruct H as [[_ H]|[_ [[ip [_ ->]]|[exc [_ ->]]]]];
      [contradiction | ..]; do 2 eexists; split; reflexivity.
  - apply do_POST_inv in H.
    destruct H as [[_ H]|[_ [w [[ip [_ ->]]|[exc [_ ->]]]]]];
      [contradiction | ..]; do 2 eexists; split; reflexivity.
Qed.

(** C8, as the code has it.  The timestamp of a JSON answer is the reading
    of [time.time()] taken for that request.  In a run of requests handled
    one after another, the timestamp of a later JSON answer is not below
    that of an earlier one whenever the clock did not read less for the
    later request than for the earlier one; the code itself puts no order
    on the readings. *)
Theorem timestamps_follow_the_clock (rt : PyRuntime) (run : list Served)
    (i j : nat) (a b : Served) (ta tb : list wire_op) :
  (i < j)%nat ->
  nth_error run i = Some a ->
  nth_error run j = Some b ->
  serve rt a = Ok ta ->
  serve rt b = Ok tb ->
  ta <> not_found_answer ->
  tb <> not_found_answer ->
  SFleb (time_time (served_env a)) (time_time (served_env b)) = true ->
  exists code_a payload_a code_b payload_b ts_a ts_b,
    ta = _json_response rt code_a payload_a
    /\ dict_find payload_a (u "timestamp") = Some (PFloat ts_a)
    /\ ts_a = time_time (served_env a)
    /\ tb = _json_response rt code_b payload_b
    /\ dict_find payload_b (u "timestamp") = Some (PFloat ts_b)
    /\ ts_b = time_time (served_env b)
    /\ SFleb ts_a ts_b = true.
Proof.
  intros _ _ _ Ha Hb Hna Hnb Hclock.
  destruct (json_answer_carries_reading rt a ta Ha Hna)
    as [code_a [payload_a [Hta Hsa]]].
  destruct (json_answer_carries_reading rt b tb Hb Hnb)
    as [code_b [payload_b [Htb Hsb]]].
  exists code_a, payload_a, code_b, payload_b,
    (time_time (served_env a)), (time_time (served_env b)).
  repeat split; assumption.
Qed.

Lemma timestamps_follow_the_clock_witness :
  (0 < 1)%nat
  /\ nth_error [served_earlier; served_now] 0 = Some served_earlier
  /\ nth_error [served_earlier; served_now] 1 = Some served_now
  /\ serve clock_runtime served_earlier
     = Ok (_json_response clock_runtime 200
             [ (u "status", PStr (u "ok"));
               (u "public_ip", PStr (u "203.0.113.7"));
               (u "timestamp", PFloat sample_earlier) ])
  /\ serve clock_runtime served_now
     = Ok (_json_response clock_runtime 200
             [ (u "status", PStr (u "ok"));
               (u "public_ip", PStr (u "203.0.113.7"));
               (u "timestamp", PFloat sample_now) ])
  /\ SFleb (time_time (served_env served_earlier))
       (time_time (served_env served_now)) = true
  /\ exists code_a payload_a code_b payload_b ts_a ts_b,
       _json_response clock_runtime 200
         [ (u "status", PStr (u "ok"));
           (u "public_ip", PStr (u "203.0.113.7"));
           (u "timestamp", PFloat sample_earlier) ]
       = _json_response clock_runtime code_a payload_a
       /\ dict_find payload_a (u "timestamp") = Some (PFloat ts_a)
       /\ ts_a = time_time (served_env served_earlier)
       /\ _json_response clock_runtime 200
            [ (u "status", PStr (u "ok"));
              (u "public_ip", PStr (u "203.0.113.7"));
              (u "timestamp", PFloat sample_now) ]
          = _json_response clock_runtime code_b payload_b
       /\ dict_find payload_b (u "timestamp") = Some (PFloat ts_b)
       /\ ts_b = time_time (served_env served_now)
       /\ SFleb ts_a ts_b = true.
Proof.
  assert (Hij : (0 < 1)%nat) by lia.
  assert (Hi : nth_error [served_earlier; served_now] 0
               = Some served_earlier) by reflexivity.
  assert (Hj : nth_error [served_earlier; served_now] 1 = Some served_now)
    by reflexivity.
  assert (Ha : serve clock_runtime served_earlier
               = Ok (_json_response clock_runtime 200
                       [ (u "status", PStr (u "ok"));
                         (u "public_ip", PStr (u "203.0.113.7"));
                         (u "timestamp", PFloat sample_earlier) ]))
    by reflexivity.
  assert (Hb : serve clock_runtime served_now
               = Ok (_json_response clock_runtime 200
                       [ (u "status", PStr (u "ok"));
                         (u "public_ip", PStr (u "203.0.113.7"));
                         (u "timestamp", PFloat sample_now) ]))
    by reflexivity.
  assert (Hna : _json_response clock_runtime 200
                  [ (u "status", PStr (u "ok"));
                    (u "public_ip", PStr (u "203.0.113.7"));
                    (u "timestamp", PFloat sample_earlier) ]
                <> not_found_answer) by discriminate.
  assert (Hnb : _json_response clock_runtime 200
                  [ (u "status", PStr (u "ok"));
                    (u "public_ip", PStr (u "203.0.113.7"));
                    (u "timestamp", PFloat sample_now) ]
                <> not_found_answer) by discriminate.
  assert (Hclock : SFleb (time_time (served_env served_earlier))
                     (time_time (served_env served_now)) = true)
    by reflexivity.
  repeat (split; [assumption|]).
  exact (timestamps_follow_the_clock clock_runtime
           [served_earlier; served_now] 0 1 served_earlier served_now _ _
           Hij Hi Hj Ha Hb Hna Hnb Hclock).
Defined.

(** C8, as the claim states it, fails: [time.time()] is the wall clock.
    When the clock is set back an hour between two GETs of /ip handled one
    after the other, the second answer carries the smaller timestamp. *)
Lemma timestamps_decrease_when_clock_set_back :
  serve clock_runtime served_now
  = Ok (_json_response clock_runtime 200
          [ (u "status", PStr (u "ok"));
            (u "public_ip", PStr (u "203.0.113.7"));
            (u "timestamp", PFloat sample_now) ])
  /\ serve clock_runtime served_earlier
     = Ok (_json_response clock_runtime 200
             [ (u "status", PStr (u "ok"));
               (u "public_ip", PStr (u "203.0.113.7"));
               (u "timestamp", PFloat sample_earlier) ])
  /\ nth_error [served_now; served_earlier] 0 = Some served_now
  /\ nth_error [served_now; served_earlier] 1 = Some served_earlier
  /\ SFleb sample_now sample_earlier = false
  /\ SFltb sample_earlier sample_now = true
  /\ sent_body (_json_response clock_runtime 200
                  [ (u "status", PStr (u "ok"));
                    (u "public_ip", PStr (u "203.0.113.7"));
                    (u "timestamp", PFloat sample_now) ])
     = list_byte_of_string
         ("{" ++ quoted "status" ++ ": " ++ quoted "ok" ++ ", "
              ++ quoted "public_ip" ++ ": " ++ quoted "203.0.113.7"
              ++ ", " ++ quoted "timestamp" ++ ": 1762282800.5}")
  /\ sent_body (_json_response clock_runtime 200
                  [ (u "status", PStr (u "ok"));
                    (u "public_ip", PStr (u "203.0.113.7"));
                    (u "timestamp", PFloat sample_earlier) ])
     = list_byte_of_string
         ("{" ++ quoted "status" ++ ": " ++ quoted "ok" ++ ", "
              ++ quoted "public_ip" ++ ": " ++ quoted "203.0.113.7"
              ++ ", " ++ quoted "timestamp" ++ ": 1762279200.5}").
Proof. repeat split. Qed.

(** * Further properties of the handler *)

(** [do_POST] on an accepted path is its two halves in sequence. *)
Lemma do_POST_steps (rt : PyRuntime) (env : Env) (req : Request) :
  In (path req) ["/invoke"; "/"] ->
  do_POST rt env req = (raw <- read_body rt req ;; answer_post rt env raw).
Proof.
  intro Hp. apply path_in_In in Hp. unfold do_POST, read_body, answer_post.
  rewrite Hp. cbn [negb].
  destruct (py_int _ _) as [n|e]; cbn [bind]; reflexivity.
Qed.

(** The lookup never makes [answer_post] raise: what it does on [raw] is
    decided by [json.loads] and the shape of the body alone. *)
Lemma answer_post_cases (rt : PyRuntime) (env : Env) (raw : list byte) :
  match json_loads rt (bytes_or raw empty_object_bytes) with
  | Ok (PDict d) =>
      exists payload,
        answer_post rt env raw = Ok (_json_response rt 200 payload)
        /\ dict_find payload (u "echo")
           = Some (match dict_find d (u "payload") with
                   | Some v => v
                   | None => PDict []
                   end)
        /\ dict_find payload (u "status")
           = Some (PStr (match get_public_ip env with
                         | Ok _ => u "ok"
                         | Raise _ => u "error"
                         end))
  | Ok _ =>
      exists e, answer_post rt env raw = Raise e
                /\ exn_cls e = AttributeError
  | Raise e =>
      if exn_class_eqb (exn_cls e) JSONDecodeError
      then exists payload,
             answer_post rt env raw = Ok (_json_response rt 200 payload)
             /\ dict_find payload (u "echo") = Some (PDict [])
             /\ dict_find payload (u "status")
                = Some (PStr (match get_public_ip env with
                              | Ok _ => u "ok"
                              | Raise _ => u "error"
                              end))
      else answer_post rt env raw = Raise e
  end.
Proof.
  unfold answer_post.
  destruct (json_loads rt (bytes_or raw empty_object_bytes)) as [body|e];
    cbn [try_except bind].
  - destruct body; cbn [py_get bind];
      try (eexists; split; reflexivity).
    destruct (dict_find d (u "payload")); cbn [bind];
      destruct (get_public_ip env); cbn [try_except_Exception bind];
      eexists; repeat split.
  - destruct (exn_class_eqb (exn_cls e) JSONDecodeError);
      [|reflexivity].
    cbn [bind py_get dict_find].
    destruct (get_public_ip env); cbn [try_except_Exception bind];
      eexists; repeat split.
Qed.

(** ** When POST answers *)

(** [do_POST] answers an accepted path only when the Content-Length
    converts, the read succeeds and [json.loads] either returns an object
    or raises [JSONDecodeError]: every other request is left without an
    answer. *)
Theorem do_POST_answers_only_if (rt : PyRuntime) (env : Env) (req : Request)
    (t : list wire_op) :
  In (path req) ["/invoke"; "/"] ->
  do_POST rt env req = Ok t ->
  exists raw,
    read_body rt req = Ok raw
    /\ ((exists d,
           json_loads rt (bytes_or raw empty_object_bytes) = Ok (PDict d))
        \/ exists e,
             json_loads rt (bytes_or raw empty_object_bytes) = Raise e
             /\ exn_cls e = JSONDecodeError).
Proof.
  intros Hp Ht. rewrite (do_POST_steps rt env req Hp) in Ht.
  destruct (read_body rt req) as [raw|e0]; cbn [bind] in Ht;
    [|discriminate].
  exists raw. split; [reflexivity|].
  pose proof (answer_post_cases rt env raw) as Hc.
  destruct (json_loads rt (bytes_or raw empty_object_bytes)) as [body|e].
  - destruct body;
      try (destruct Hc as [e [He _]]; rewrite He in Ht; discriminate).
    left. now exists d.
  - right. exists e. split; [reflexivity|].
    destruct (exn_cls e); cbn in Hc; try reflexivity;
      rewrite Hc in Ht; discriminate.
Qed.

Lemma do_POST_answers_only_if_witness :
  In (path post_payload) ["/invoke"; "/"]
  /\ do_POST sample_runtime env_timeout post_payload
     = Ok (_json_response sample_runtime 200
             [ (u "status", PStr (u "error"));
               (u "error", PStr (u "ip_check_failed: ReadTimeout()"));
               (u "echo", PDict [(u "a", PInt 1)]);
               (u "public_ip", PNone);
               (u "timestamp", PFloat sample_now) ])
  /\ exists raw,
       read_body sample_runtime post_payload = Ok raw
       /\ ((exists d,
              json_loads sample_runtime (bytes_or raw empty_object_bytes)
              = Ok (PDict d))
           \/ exists e,
                json_loads sample_runtime (bytes_or raw empty_object_bytes)
                = Raise e
                /\ exn_cls e = JSONDecodeError).
Proof.
  assert (Hp : In (path post_payload) ["/invoke"; "/"]) by (simpl; auto).
  assert (Ht : do_POST sample_runtime env_timeout post_payload
               = Ok (_json_response sample_runtime 200
                       [ (u "status", PStr (u "error"));
                         (u "error",
                          PStr (u "ip_check_failed: ReadTimeout()"));
                         (u "echo", PDict [(u "a", PInt 1)]);
                         (u "public_ip", PNone);
                         (u "timestamp", PFloat sample_now) ]))
    by reflexivity.
  split; [exact Hp|]. split; [exact Ht|].
  exact (do_POST_answers_only_if sample_runtime env_timeout post_payload _
           Hp Ht).
Defined.

(** ** The echo *)

(** Whenever [do_POST] answers a request whose body is a JSON object, the
    answer is a 200 whose echo is the value under the key payload, or the
    empty object when the body has no such key; the status field says
    whether the lookup returned, and the answer is a 200 when it did
    not. *)
Theorem do_POST_echo (rt : PyRuntime) (env : Env) (req : Request)
    (raw : list byte) (d : list (ustr * pyval)) (t : list wire_op) :
  In (path req) ["/invoke"; "/"] ->
  read_body rt req = Ok raw ->
  json_loads rt (bytes_or raw empty_object_bytes) = Ok (PDict d) ->
  do_POST rt env req = Ok t ->
  exists payload,
    t = _json_response rt 200 payload
    /\ dict_find payload (u "echo")
       = Some (match dict_find d (u "payload") with
               | Some v => v
               | None => PDict []
               end)
    /\ dict_find payload (u "status")
       = Some (PStr (match get_public_ip env with
                     | Ok _ => u "ok"
                     | Raise _ => u "error"
                     end)).
Proof.
  intros Hp Hr Hl Ht.
  rewrite (do_POST_steps rt env req Hp), Hr in Ht. cbn [bind] in Ht.
  pose proof (answer_post_cases rt env raw) as Hc. rewrite Hl in Hc.
  destruct Hc as [payload [Hc He]]. rewrite Hc in Ht. injection Ht as <-.
  now exists payload.
Qed.

Lemma do_POST_echo_witness :
  In (path post_payload) ["/invoke"; "/"]
  /\ read_body sample_runtime post_payload = Ok (rfile post_payload)
  /\ json_loads sample_runtime
       (bytes_or (rfile post_payload) empty_object_bytes)
     = Ok (PDict [(u "payload", PDict [(u "a", PInt 1)])])
  /\ do_POST sample_runtime env_timeout post_payload
     = Ok (_json_response sample_runtime 200
             [ (u "status", PStr (u "error"));
               (u "error", PStr (u "ip_check_failed: ReadTimeout()"));
               (u "echo", PDict [(u "a", PInt 1)]);
               (u "public_ip", PNone);
               (u "timestamp", PFloat sample_now) ])
  /\ exists payload,
       _json_response sample_runtime 200
         [ (u "status", PStr (u "error"));
           (u "error", PStr (u "ip_check_failed: ReadTimeout()"));
           (u "echo", PDict [(u "a", PInt 1)]);
           (u "public_ip", PNone);
           (u "timestamp", PFloat sample_now) ]
       = _json_response sample_runtime 200 payload
       /\ dict_find payload (u "echo") = Some (PDict [(u "a", PInt 1)])
       /\ dict_find payload (u "status") = Some (PStr (u "error")).
Proof.
  assert (Hp : In (path post_payload) ["/invoke"; "/"]) by (simpl; auto).
  assert (Hr : read_body sample_runtime post_payload
               = Ok (rfile post_payload)) by reflexivity.
  assert (Hl : json_loads sample_runtime
                 (bytes_or (rfile post_payload) empty_object_bytes)
               = Ok (PDict [(u "payload", PDict [(u "a", PInt 1)])]))
    by reflexivity.
  assert (Ht : do_POST sample_runtime env_timeout post_payload
               = Ok (_json_response sample_runtime 200
                       [ (u "status", PStr (u "error"));
                         (u "error",
                          PStr (u "ip_check_failed: ReadTimeout()"));
                         (u "echo", PDict [(u "a", PInt 1)]);
                         (u "public_ip", PNone);
                         (u "timestamp", PFloat sample_now) ]))
    by reflexivity.
  split; [exact Hp|]. split; [exact Hr|]. split; [exact Hl|].
  split; [exact Ht|].
  exact (do_POST_echo sample_runtime env_timeout post_payload _ _ _
           Hp Hr Hl Ht).
Defined.

(** ** The lookup cannot make POST raise *)

(** An exception that leaves [do_POST] comes from the request alone: the
    same request raises the same exception whatever the lookup returns or
    raises and whatever the clock reads. *)
Theorem do_POST_raises_whatever_the_lookup (rt : PyRuntime) (env env' : Env)
    (req : Request) (e : exn) :
  do_POST rt env req = Raise e -> do_POST rt env' req = Raise e.
Proof.
  destruct (path_in (path req) ["/invoke"; "/"]) eqn:Hp.
  - apply path_in_In in Hp. rewrite !(do_POST_steps _ _ _ Hp).
    destruct (read_body rt req) as [raw|e0]; cbn [bind]; [|trivial].
    unfold answer_post.
    destruct (try_except _ _ _) as [body|e1]; cbn [bind]; [|trivial].
    destruct (py_get body _ _) as [worker_payload|e2]; cbn [bind];
      [|trivial].
    destruct (get_public_ip env); cbn [try_except_Exception bind];
      intro H; discriminate H.
  - unfold do_POST. rewrite Hp. intro H. discriminate H.
Qed.

Lemma do_POST_raises_whatever_the_lookup_witness :
  do_POST sample_runtime env_ok post_array
  = Raise (mkExn AttributeError (u "'list' object has no attribute 'get'"))
  /\ do_POST sample_runtime env_timeout post_array
     = Raise (mkExn AttributeError
                (u "'list' object has no attribute 'get'")).
Proof.
  assert (H : do_POST sample_runtime env_ok post_array
              = Raise (mkExn AttributeError
                         (u "'list' object has no attribute 'get'")))
    by reflexivity.
  split; [exact H|].
  exact (do_POST_raises_whatever_the_lookup sample_runtime env_ok
           env_timeout post_array _ H).
Defined.

(** ** How much of the body is read *)

Lemma py_int_zero (max_digits : nat) : py_int max_digits "0" = Ok 0.
Proof. destruct max_digits as [|[|m]]; reflexivity. Qed.

(** [do_POST] reads no more than Content-Length says: whatever the client
    sends after that many bytes has no effect on the outcome. *)
Theorem do_POST_reads_content_length (rt : PyRuntime) (env : Env)
    (req : Request) (n : Z) :
  py_int (int_max_str_digits rt)
    (str_or (headers_get (headers req) "Content-Length" "0") "0") = Ok n ->
  0 <= n ->
  do_POST rt env req
  = do_POST rt env (with_rfile req (firstn (Z.to_nat n) (rfile req))).
Proof.
  intros Hn Hpos. unfold do_POST, with_rfile. cbn [path headers rfile].
  rewrite Hn.
  destruct (path_in (path req) ["/invoke"; "/"]); cbn [negb bind];
    [|reflexivity].
  destruct (n =? 0); cbn [negb]; [reflexivity|].
  assert (Hr : rfile_read (firstn (Z.to_nat n) (rfile req)) n
               = rfile_read (rfile req) n).
  { unfold rfile_read.
    destruct (n <? -1); [reflexivity|].
    destruct (n =? -1) eqn:H1; [apply Z.eqb_eq in H1; lia|].
    destruct (ssize_t_max <? n); [reflexivity|].
    now rewrite firstn_firstn, Nat.min_id. }
  now rewrite Hr.
Qed.

Lemma do_POST_reads_content_length_witness :
  py_int (int_max_str_digits sample_runtime)
    (str_or (headers_get (headers post_padded) "Content-Length" "0") "0")
  = Ok 2
  /\ 0 <= 2
  /\ do_POST sample_runtime env_ok post_padded
     = do_POST sample_runtime env_ok (with_rfile post_padded [x7b; x7d]).
Proof.
  assert (Hn : py_int (int_max_str_digits sample_runtime)
                 (str_or (headers_get (headers post_padded)
                            "Content-Length" "0") "0") = Ok 2)
    by reflexivity.
  assert (Hpos : 0 <= 2) by lia.
  split; [exact Hn|]. split; [exact Hpos|].
  exact (do_POST_reads_content_length sample_runtime env_ok post_padded 2
           Hn Hpos).
Defined.

(** When the Content-Length converts to 0, which it does when the header
    is absent or empty, [do_POST] never reads the body: the outcome is the
    same whatever bytes the client sent. *)
Theorem do_POST_zero_length_ignores_body (rt : PyRuntime) (env : Env)
    (req : Request) (f : list byte) :
  py_int (int_max_str_digits rt)
    (str_or (headers_get (headers req) "Content-Length" "0") "0") = Ok 0 ->
  do_POST rt env req = do_POST rt env (with_rfile req f)
  /\ do_POST rt env req = do_POST rt env (with_headers (with_rfile req f) []).
Proof.
  intro Hn. unfold do_POST, with_rfile, with_headers, headers_get.
  cbn [path headers rfile headers_find str_or]. fold (headers_get (headers req)
    "Content-Length" "0"). rewrite Hn, py_int_zero.
  destruct (path_in (path req) ["/invoke"; "/"]); cbn [negb bind];
    split; reflexivity.
Qed.

Lemma do_POST_zero_length_ignores_body_witness :
  py_int (int_max_str_digits sample_runtime)
    (str_or (headers_get (headers post_no_body) "Content-Length" "0") "0")
  = Ok 0
  /\ do_POST sample_runtime env_ok post_no_body
     = do_POST sample_runtime env_ok (with_rfile post_no_body [x5b; x31; x5d])
  /\ do_POST sample_runtime env_ok post_no_body
     = do_POST sample_runtime env_ok
         (with_headers (with_rfile post_no_body [x5b; x31; x5d]) []).
Proof.
  assert (Hn : py_int (int_max_str_digits sample_runtime)
                 (str_or (headers_get (headers post_no_body)
                            "Content-Length" "0") "0") = Ok 0)
    by reflexivity.
  split; [exact Hn|].
  exact (do_POST_zero_length_ignores_body sample_runtime env_ok post_no_body
           [x5b; x31; x5d] Hn).
Defined.

(** A POST that announces a body of at most 64 KiB, or of length -1, and
    whose read returns no bytes at all is handled like a POST without
    Content-Length: the empty read is replaced by the empty object. *)
Theorem do_POST_empty_read (rt : PyRuntime) (env : Env) (req : Request)
    (n : Z) :
  py_int (int_max_str_digits rt)
    (str_or (headers_get (headers req) "Content-Length" "0") "0") = Ok n ->
  n <> 0 ->
  n <= 65536 ->
  rfile_read (rfile req) n = Ok [] ->
  do_POST rt env req = do_POST rt env (with_headers req []).
Proof.
  intros Hn Hz _ Hr. apply Z.eqb_neq in Hz.
  unfold do_POST, with_headers, headers_get.
  cbn [path headers rfile headers_find str_or].
  fold (headers_get (headers req) "Content-Length" "0").
  rewrite Hn, py_int_zero.
  destruct (path_in (path req) ["/invoke"; "/"]); cbn [negb bind];
    [|reflexivity].
  rewrite Hz, Hr. reflexivity.
Qed.

Lemma do_POST_empty_read_witness :
  py_int (int_max_str_digits sample_runtime)
    (str_or (headers_get (headers post_nothing_sent) "Content-Length" "0")
       "0") = Ok 5
  /\ 5 <> 0
  /\ 5 <= 65536
  /\ rfile_read (rfile post_nothing_sent) 5 = Ok []
  /\ do_POST sample_runtime env_ok post_nothing_sent
     = do_POST sample_runtime env_ok (with_headers post_nothing_sent []).
Proof.
  assert (Hn : py_int (int_max_str_digits sample_runtime)
                 (str_or (headers_get (headers post_nothing_sent)
                            "Content-Length" "0") "0") = Ok 5)
    by reflexivity.
  assert (Hz : 5 <> 0) by discriminate.
  assert (Hb : 5 <= 65536) by discriminate.
  assert (Hr : rfile_read (rfile post_nothing_sent) 5 = Ok [])
    by reflexivity.
  split; [exact Hn|]. split; [exact Hz|]. split; [exact Hb|].
  split; [exact Hr|].
  exact (do_POST_empty_read sample_runtime env_ok post_nothing_sent 5
           Hn Hz Hb Hr).
Defined.

(** ** What the lookup returns *)

Lemma lstrip_id (s : ustr) : starts_nonspace s -> lstrip s = s.
Proof. destruct s as [|c s]; cbn; [reflexivity | now intros ->]. Qed.

Lemma strip_idempotent (s : ustr) : strip (strip s) = strip s.
Proof.
  destruct (strip_stripped_of s) as [l [r [_ [_ [_ [Hh Ht]]]]]].
  unfold strip at 1, rstrip. rewrite (lstrip_id _ Hh), (lstrip_id _ Ht).
  apply rev_involutive.
Qed.

Lemma lstrip_blank (s : ustr) : forallb isspace s = true -> lstrip s = [].
Proof.
  induction s as [|c s IH]; cbn; [reflexivity|].
  intro H. apply andb_true_iff in H. destruct H as [Hc Hs].
  rewrite Hc. now apply IH.
Qed.

(** The address [get_public_ip] returns is already stripped: it neither
    starts nor ends with white space, and stripping it again changes
    nothing. *)
Theorem get_public_ip_stripped (env : Env) (s : ustr) :
  get_public_ip env = Ok s ->
  strip s = s /\ starts_nonspace s /\ starts_nonspace (List.rev s).
Proof.
  unfold get_public_ip.
  destruct (requests_get env) as [resp|e]; cbn [bind]; [|discriminate].
  destruct (raise_for_status resp) as [[]|e]; cbn [bind]; [|discriminate].
  intros [= <-].
  destruct (strip_stripped_of (text resp)) as [l [r [_ [_ [_ [Hh Ht]]]]]].
  split; [apply strip_idempotent | now split].
Qed.

Lemma get_public_ip_stripped_witness :
  get_public_ip env_ok = Ok (u "203.0.113.7")
  /\ strip (u "203.0.113.7") = u "203.0.113.7"
  /\ starts_nonspace (u "203.0.113.7")
  /\ starts_nonspace (List.rev (u "203.0.113.7")).
Proof.
  assert (H : get_public_ip env_ok = Ok (u "203.0.113.7")) by reflexivity.
  split; [exact H|]. exact (get_public_ip_stripped env_ok _ H).
Defined.

(** A lookup answered without an error status but with an empty body, or
    one of white space only, counts as a success: GET answers 200 with
    status "ok" and the empty string as public_ip. *)
Theorem do_GET_blank_lookup (rt : PyRuntime) (env : Env) (req : Request)
    (resp : Response) :
  In (path req) ["/"; "/healthz"; "/ip"] ->
  requests_get env = Ok resp ->
  ~ (400 <= status_code resp < 600) ->
  forallb isspace (text resp) = true ->
  get_public_ip env = Ok []
  /\ do_GET rt env req
     = Ok (_json_response rt 200
             [ (u "status", PStr (u "ok"));
               (u "public_ip", PStr []);
               (u "timestamp", PFloat (time_time env)) ]).
Proof.
  intros Hp Hr Hc Hb.
  assert (Hs : get_public_ip env = Ok []).
  { unfold get_public_ip. rewrite Hr. cbn [bind].
    rewrite (raise_for_status_pass resp Hc). cbn [bind].
    unfold strip. now rewrite (lstrip_blank _ Hb). }
  split; [exact Hs|].
  unfold do_GET. apply path_in_In in Hp. rewrite Hp, Hs. reflexivity.
Qed.

Lemma do_GET_blank_lookup_witness :
  In (path get_ip) ["/"; "/healthz"; "/ip"]
  /\ requests_get env_blank = Ok (response_with 200 "  ")
  /\ ~ (400 <= status_code (response_with 200 "  ") < 600)
  /\ forallb isspace (text (response_with 200 "  ")) = true
  /\ get_public_ip env_blank = Ok []
  /\ do_GET sample_runtime env_blank get_ip
     = Ok (_json_response sample_runtime 200
             [ (u "status", PStr (u "ok"));
               (u "public_ip", PStr []);
               (u "timestamp", PFloat (time_time env_blank)) ]).
Proof.
  assert (Hp : In (path get_ip) ["/"; "/healthz"; "/ip"])
    by (simpl; auto).
  assert (Hr : requests_get env_blank = Ok (response_with 200 "  "))
    by reflexivity.
  assert (Hc : ~ (400 <= status_code (response_with 200 "  ") < 600))
    by (cbn; lia).
  assert (Hb : forallb isspace (text (response_with 200 "  ")) = true)
    by reflexivity.
  split; [exact Hp|]. split; [exact Hr|]. split; [exact Hc|].
  split; [exact Hb|].
  exact (do_GET_blank_lookup sample_runtime env_blank get_ip _ Hp Hr Hc Hb).
Defined.

(** ** Fields every JSON answer has *)

(** Every JSON answer of [do_GET] and [do_POST] has a status that is "ok"
    or "error", "ok" exactly when the lookup returned, and a timestamp that
    is the reading of [time.time()] of this request. *)
Theorem json_answer_status_and_timestamp (rt : PyRuntime) (env : Env)
    (req : Request) (t : list wire_op) :
  do_GET rt env req = Ok t \/ do_POST rt env req = Ok t ->
  t <> not_found_answer ->
  exists (code : Z) (payload : list (ustr * pyval)),
    t = _json_response rt code payload
    /\ dict_find payload (u "timestamp") = Some (PFloat (time_time env))
    /\ dict_find payload (u "status")
       = Some (PStr (match get_public_ip env with
                     | Ok _ => u "ok"
                     | Raise _ => u "error"
                     end)).
Proof.
  intros H Hnf. destruct H as [H|H].
  - apply do_GET_inv in H.
    destruct H as [[_ H]|[_ [[s [Hs ->]]|[exc [Hs ->]]]]];
      [contradiction | ..]; rewrite Hs; do 2 eexists; repeat split.
  - apply do_POST_inv in H.
    destruct H as [[_ H]|[_ [w [[s [Hs ->]]|[exc [Hs ->]]]]]];
      [contradiction | ..]; rewrite Hs; do 2 eexists; repeat split.
Qed.

Lemma json_answer_status_and_timestamp_witness :
  (do_GET sample_runtime env_ok get_ip = Ok sample_ok_answer
   \/ do_POST sample_runtime env_ok get_ip = Ok sample_ok_answer)
  /\ sample_ok_answer <> not_found_answer
  /\ exists (code : Z) (payload : list (ustr * pyval)),
       sample_ok_answer = _json_response sample_runtime code payload
       /\ dict_find payload (u "timestamp") = Some (PFloat sample_now)
       /\ dict_find payload (u "status") = Some (PStr (u "ok")).
Proof.
  assert (H1 : do_GET sample_runtime env_ok get_ip = Ok sample_ok_answer
               \/ do_POST sample_runtime env_ok get_ip = Ok sample_ok_answer)
    by (left; reflexivity).
  assert (H2 : sample_ok_answer <> not_found_answer) by discriminate.
  split; [exact H1|]. split; [exact H2|].
  exact (json_answer_status_and_timestamp sample_runtime env_ok get_ip _
           H1 H2).
Defined.

(** ** Routes are compared as written *)

(** Outside its routes each method answers with the 404 page. *)
Lemma unknown_path_status (rt : PyRuntime) (env : Env) (req : Request) :
  (~ In (path req) ["/"; "/healthz"; "/ip"] ->
   do_GET rt env req = Ok not_found_answer)
  /\ (~ In (path req) ["/invoke"; "/"] ->
      do_POST rt env req = Ok not_found_answer).
Proof.
  split; intro Hp; apply path_in_not_In in Hp.
  - unfold do_GET. now rewrite Hp.
  - unfold do_POST. now rewrite Hp.
Qed.


(** The path is compared with the routes character by character, query
    string included: a request whose target carries a question mark is not
    found, under GET and under POST, whatever precedes the mark. *)
Theorem path_with_query_not_found (rt : PyRuntime) (env : Env)
    (req : Request) :
  In "?"%char (list_ascii_of_string (path req)) ->
  do_GET rt env req = Ok not_found_answer
  /\ do_POST rt env req = Ok not_found_answer.
Proof.
  intro Hq.
  assert (Hg : ~ In (path req) ["/"; "/healthz"; "/ip"]).
  { intro H. cbn [In] in H.
    destruct H as [H|[H|[H|[]]]]; rewrite <- H in Hq; cbn in Hq;
      repeat (destruct Hq as [Hq|Hq]; [discriminate Hq|]); exact Hq. }
  assert (Hp : ~ In (path req) ["/invoke"; "/"]).
  { intro H. cbn [In] in H.
    destruct H as [H|[H|[]]]; rewrite <- H in Hq; cbn in Hq;
      repeat (destruct Hq as [Hq|Hq]; [discriminate Hq|]); exact Hq. }
  destruct (unknown_path_status rt env req) as [H1 H2].
  split; [exact (H1 Hg) | exact (H2 Hp)].
Qed.

Lemma path_with_query_not_found_witness :
  In "?"%char
    (list_ascii_of_string
       (path {| path := "/ip?verbose=1"; headers := []; rfile := [] |}))
  /\ do_GET sample_runtime env_ok
       {| path := "/ip?verbose=1"; headers := []; rfile := [] |}
     = Ok not_found_answer
  /\ do_POST sample_runtime env_ok
       {| path := "/ip?verbose=1"; headers := []; rfile := [] |}
     = Ok not_found_answer.
Proof.
  assert (Hq : In "?"%char
                 (list_ascii_of_string
                    (path {| path := "/ip?verbose=1"; headers := [];
                             rfile := [] |})))
    by (cbn; tauto).
  split; [exact Hq|].
  exact (path_with_query_not_found sample_runtime env_ok _ Hq).
Defined.

(** The two methods serve different routes: [/] is the only path that
    neither [do_GET] nor [do_POST] answers with the 404 page. *)
Theorem only_root_on_both_methods (rt : PyRuntime) (env : Env)
    (req : Request) :
  (do_GET rt env req <> Ok not_found_answer
   /\ do_POST rt env req <> Ok not_found_answer)
  <-> path req = "/".
Proof.
  destruct (unknown_path_status rt env req) as [H1 H2]. split.
  - intros [Hg Hp].
    destruct (path_in (path req) ["/"; "/healthz"; "/ip"]) eqn:Eg;
      [|apply path_in_not_In in Eg; now elim Hg; apply H1].
    destruct (path_in (path req) ["/invoke"; "/"]) eqn:Ep;
      [|apply path_in_not_In in Ep; now elim Hp; apply H2].
    apply path_in_In in Eg. apply path_in_In in Ep. cbn [In] in Eg, Ep.
    destruct Eg as [Eg|[Eg|[Eg|[]]]]; [now symmetry | ..];
      destruct Ep as [Ep|[Ep|[]]]; rewrite <- Eg in Ep; discriminate Ep.
  - intro Hroot. split.
    + intro H. apply do_GET_inv in H.
      destruct H as [[Hn _]|[_ [[s [_ H]]|[exc [_ H]]]]];
        [apply Hn; rewrite Hroot; cbn; auto | discriminate H ..].
    + intro H. apply do_POST_inv in H.
      destruct H as [[Hn _]|[_ [w [[s [_ H]]|[exc [_ H]]]]]];
        [apply Hn; rewrite Hroot; cbn; auto | discriminate H ..].
Qed.

(** ** Header names *)

Lemma headers_find_same_names (h h' : list (string * string))
    (name : string) :
  Forall2 (fun a b => lower_str (fst a) = lower_str (fst b)
                      /\ snd a = snd b) h h' ->
  headers_find h name = headers_find h' name.
Proof.
  induction 1 as [|[k v] [k' v'] h h' [Hk Hv] _ IH]; cbn [headers_find];
    [reflexivity|].
  cbn [fst snd] in Hk, Hv. subst v'. rewrite Hk, IH. reflexivity.
Qed.

(** [do_POST] finds Content-Length whatever the case of the header names:
    two requests whose headers differ only in the case of their names get
    the same outcome. *)
Theorem do_POST_header_names_any_case (rt : PyRuntime) (env : Env)
    (req : Request) (h' : list (string * string)) :
  Forall2 (fun a b => lower_str (fst a) = lower_str (fst b)
                      /\ snd a = snd b) (headers req) h' ->
  do_POST rt env req = do_POST rt env (with_headers req h').
Proof.
  intro Hh. unfold do_POST, with_headers, headers_get.
  cbn [path headers rfile].
  now rewrite (headers_find_same_names _ _ "Content-Length" Hh).
Qed.

Lemma do_POST_header_names_any_case_witness :
  Forall2 (fun a b => lower_str (fst a) = lower_str (fst b)
                      /\ snd a = snd b)
    (headers post_padded) [("CONTENT-LENGTH", "2")]
  /\ do_POST sample_runtime env_ok post_padded
     = do_POST sample_runtime env_ok
         (with_headers post_padded [("CONTENT-LENGTH", "2")]).
Proof.
  assert (Hh : Forall2 (fun a b => lower_str (fst a) = lower_str (fst b)
                                   /\ snd a = snd b)
                 (headers post_padded) [("CONTENT-LENGTH", "2")])
    by (repeat constructor).
  split; [exact Hh|].
  exact (do_POST_header_names_any_case sample_runtime env_ok post_padded _
           Hh).
Defined.

(** ** The JSON body is ASCII *)

Lemma ascii_only_app (a b : string) :
  ascii_only (a ++ b) = ascii_only a && ascii_only b.
Proof.
  induction a as [|c a IH]; cbn; [reflexivity|].
  rewrite IH. apply andb_assoc.
Qed.

Lemma ascii_only_concat (sep : string) (l : list string) :
  ascii_only sep = true ->
  Forall (fun s => ascii_only s = true) l ->
  ascii_only (concat sep l) = true.
Proof.
  intros Hsep Hl. induction Hl as [|x l Hx Hl IH]; [reflexivity|].
  cbn [concat]. destruct l as [|y l]; [exact Hx|].
  now rewrite !ascii_only_app, Hx, Hsep, IH.
Qed.

Lemma land_15_lt (n : N) : (N.land n 15 < 16)%N.
Proof.
  change 15%N with (N.ones 4). rewrite N.land_ones.
  apply N.mod_lt. discriminate.
Qed.

Lemma hex_digit_ascii (k : N) :
  (k < 16)%N -> (N_of_ascii (hex_digit k) <? 128)%N = true.
Proof.
  intro Hk. unfold hex_digit. apply N.ltb_lt.
  destruct (k <? 10)%N; rewrite N_ascii_embedding; lia.
Qed.

Lemma escape_u_ascii (n : N) : ascii_only (escape_u n) = true.
Proof.
  unfold escape_u. cbn [ascii_only].
  rewrite !hex_digit_ascii by apply land_15_lt. reflexivity.
Qed.

Lemma escape_char_ascii (c : N) : ascii_only (escape_char c) = true.
Proof.
  unfold escape_char.
  repeat match goal with
         | |- context [if (c =? ?k)%N then _ else _] =>
             destruct (c =? k)%N; [reflexivity|]
         end.
  destruct ((32 <=? c) && (c <=? 126))%N eqn:Hp.
  - apply andb_true_iff in Hp. destruct Hp as [Hl Hu].
    apply N.leb_le in Hl, Hu. cbn [ascii_only].
    rewrite N_ascii_embedding by lia.
    replace (c <? 128)%N with true by (symmetry; apply N.ltb_lt; lia).
    reflexivity.
  - destruct (c <? 65536)%N; [apply escape_u_ascii|].
    rewrite ascii_only_app, !escape_u_ascii. reflexivity.
Qed.

Lemma encode_basestring_ascii_ascii (s : ustr) :
  ascii_only (encode_basestring_ascii s) = true.
Proof.
  unfold encode_basestring_ascii. cbn [ascii_only].
  rewrite ascii_only_app. cbn.
  rewrite andb_true_r. apply ascii_only_concat; [reflexivity|].
  apply Forall_forall. intros x Hx. apply in_map_iff in Hx.
  destruct Hx as [c [<- _]]. apply escape_char_ascii.
Qed.

Lemma string_of_uint_ascii (d : uint) :
  ascii_only (NilEmpty.string_of_uint d) = true.
Proof. induction d; cbn; assumption || reflexivity. Qed.

Lemma py_str_Z_ascii (n : Z) : ascii_only (py_str_Z n) = true.
Proof.
  unfold py_str_Z, NilZero.string_of_int, NilZero.string_of_uint.
  destruct (Z.to_int n) as [d|d]; destruct d; try reflexivity;
    try (apply (string_of_uint_ascii (_ _)));
    cbn [ascii_only String.append]; apply (string_of_uint_ascii (_ _)).
Qed.

Lemma json_dumps_ascii (fr : spec_float -> string) :
  (forall f, ascii_only (fr f) = true) ->
  forall v, ascii_only (json_dumps fr v) = true.
Proof.
  intro Hfr. fix IH 1. intros [| [|] | n | f | s | l | d]; cbn [json_dumps].
  - reflexivity.
  - reflexivity.
  - reflexivity.
  - apply py_str_Z_ascii.
  - destruct f as [? | [|] | | ? ? ?]; cbn [floatstr];
      reflexivity || apply Hfr.
  - apply encode_basestring_ascii_ascii.
  - rewrite !ascii_only_app.
    rewrite (ascii_only_concat ", "); [reflexivity | reflexivity |].
    induction l as [|x l IHl]; cbn [map]; constructor;
      [apply IH | exact IHl].
  - rewrite !ascii_only_app.
    rewrite (ascii_only_concat ", "); [reflexivity | reflexivity |].
    induction d as [|[k x] d IHd]; cbn [map]; constructor; [|exact IHd].
    cbn [fst snd].
    now rewrite !ascii_only_app, encode_basestring_ascii_ascii, IH.
Qed.

Lemma encode_utf8_ascii (s : string) :
  ascii_only s = true ->
  encode_utf8 s = list_byte_of_string s
  /\ List.length (encode_utf8 s) = String.length s.
Proof.
  induction s as [|c s IH]; cbn [ascii_only encode_utf8 String.length].
  - intros _. split; reflexivity.
  - intro H. apply andb_true_iff in H. destruct H as [Hc Hs].
    rewrite Hc. destruct (IH Hs) as [IH1 IH2]. split.
    + unfold list_byte_of_string. cbn [list_ascii_of_string map].
      f_equal. exact IH1.
    + cbn [List.length]. now rewrite IH2.
Qed.

(** Whatever the payload holds, text outside ASCII included, the JSON text
    [_json_response] writes is ASCII: the body has one byte per character
    of [json.dumps(payload)], so the announced Content-Length is also the
    number of characters. *)
Theorem json_response_body_ascii (rt : PyRuntime) (status : Z)
    (payload : list (ustr * pyval)) :
  (forall f, ascii_only (float_repr rt f) = true) ->
  let text := json_dumps (float_repr rt) (PDict payload) in
  let t := _json_response rt status payload in
  ascii_only text = true
  /\ sent_body t = list_byte_of_string text
  /\ sent_header t "Content-Length"
     = Some (py_str_Z (Z.of_nat (String.length text))).
Proof.
  intros Hfr text t.
  assert (Ha : ascii_only text = true) by now apply json_dumps_ascii.
  destruct (encode_utf8_ascii text Ha) as [He Hl].
  split; [exact Ha|]. split.
  - unfold t. rewrite json_response_body. exact He.
  - destruct (json_response_headers rt status payload) as [_ Hcl].
    unfold t. rewrite Hcl, json_response_body. unfold len.
    fold text. now rewrite Hl.
Qed.

Lemma json_response_body_ascii_witness :
  (forall f, ascii_only (float_repr sample_runtime f) = true)
  /\ ascii_only
       (json_dumps (float_repr sample_runtime)
          (PDict [(u "echo", PStr [233; 128512]%N)])) = true
  /\ sent_body (_json_response sample_runtime 200
                  [(u "echo", PStr [233; 128512]%N)])
     = list_byte_of_string
         (json_dumps (float_repr sample_runtime)
            (PDict [(u "echo", PStr [233; 128512]%N)]))
  /\ sent_header (_json_response sample_runtime 200
                    [(u "echo", PStr [233; 128512]%N)]) "Content-Length"
     = Some (py_str_Z (Z.of_nat (String.length
               (json_dumps (float_repr sample_runtime)
                  (PDict [(u "echo", PStr [233; 128512]%N)]))))).
Proof.
  assert (Hfr : forall f, ascii_only (float_repr sample_runtime f) = true)
    by (intro f; reflexivity).
  split; [exact Hfr|].
  exact (json_response_body_ascii sample_runtime 200
           [(u "echo", PStr [233; 128512]%N)] Hfr).
Defined.

Example echo_non_ascii :
  json_dumps (float_repr sample_runtime) (PDict [(u "echo", PStr [233; 128512]%N)])
  = "{" ++ quoted "echo" ++ ": "
        ++ quoted (String backslash ("u00e9" ++ String backslash
                     ("ud83d" ++ String backslash "ude00"))) ++ "}".
Proof. reflexivity. Qed.

(** ** The lenient fallbacks at a concrete request *)

